(** * Responsive layout engine (src/utils/responsive.js)

    A shallow embedding of the layout utilities of the dashboard application:
    [wp], [hp], [rf], the load-time tables [spacing] and [typography], the
    classifier [getDeviceType], [getGridColumns], [isTablet] and
    [getAdaptivePadding], together with the fragment of JavaScript they rely
    on (numbers with NaN and the infinities, [ToNumber] on strings, [||],
    [Math.min], [Math.round]), and of what their callers compute with them:
    the rows and the column state of [ResponsiveGrid], the orientation
    state and the refresh of the dashboard screen, the header's padding.

    The repository carries a second copy of the file with the same
    functions and other literals in the two tables ([wp('2%')] to
    [wp('16%')], [rf(56)] to [rf(24)]); the copy followed here is the one
    the layout documentation quotes. *)

From Stdlib Require Import ZArith QArith Qcanon Qround Qpower.
From Stdlib Require Import Bool List String Ascii Lia Lqa.
Import ListNotations.

Local Open Scope Z_scope.

(** ** JavaScript numbers

    A finite double is a rational number, so finite numbers are kept as
    canonical rationals: comparisons, [Math.min], [Math.round] and truthiness
    are exact on doubles and coincide with the definitions below.  [*], [/]
    and [-] are modelled without rounding error; they coincide with the
    double operations whenever the exact result is representable (integers
    of magnitude up to 2^53, multiplication by 1, [640 / 640], ...), and
    only there: every general property below that depends on the value of
    a product, a quotient or a difference carries the bounds that keep the
    operands and the result representable.  The sign of zero is not
    tracked; nothing in the module observes it. *)
Module JS.

Inductive number : Type :=
| NaN
| NegInf
| Fin (q : Qc)
| PosInf.

Definition int (z : Z) : number := Fin (Q2Qc (inject_Z z)).

Definition isNaN (x : number) : bool :=
  match x with NaN => true | _ => false end.

(** Sign of a finite value: [Lt] negative, [Eq] zero, [Gt] positive. *)
Definition sgn (q : Qc) : comparison := Qccompare q (Q2Qc 0).

(** [x < y]; every comparison with NaN is false. *)
Definition ltb (x y : number) : bool :=
  match x, y with
  | NaN, _ | _, NaN => false
  | NegInf, NegInf => false
  | NegInf, _ => true
  | _, NegInf => false
  | PosInf, _ => false
  | Fin _, PosInf => true
  | Fin a, Fin b => match Qccompare a b with Lt => true | _ => false end
  end.

(** [x > y] is [y < x]. *)
Definition gtb (x y : number) : bool := ltb y x.

(** [x <= y]: false with NaN, otherwise the negation of [y < x]. *)
Definition leb (x y : number) : bool :=
  match x, y with
  | NaN, _ | _, NaN => false
  | _, _ => negb (ltb y x)
  end.

(** [x >= y] is [y <= x]. *)
Definition geb (x y : number) : bool := leb y x.

(** [x * y]. *)
Definition mul (x y : number) : number :=
  match x, y with
  | NaN, _ | _, NaN => NaN
  | Fin a, Fin b => Fin (a * b)%Qc
  | Fin a, PosInf | PosInf, Fin a =>
      match sgn a with Eq => NaN | Lt => NegInf | Gt => PosInf end
  | Fin a, NegInf | NegInf, Fin a =>
      match sgn a with Eq => NaN | Lt => PosInf | Gt => NegInf end
  | PosInf, PosInf | NegInf, NegInf => PosInf
  | PosInf, NegInf | NegInf, PosInf => NegInf
  end.

(** [x / y]; a zero divisor counts as [+0]. *)
Definition div (x y : number) : number :=
  match x, y with
  | NaN, _ | _, NaN => NaN
  | Fin a, Fin b =>
      match sgn b with
      | Eq => match sgn a with Eq => NaN | Lt => NegInf | Gt => PosInf end
      | _ => Fin (a / b)%Qc
      end
  | Fin _, (PosInf | NegInf) => Fin (Q2Qc 0)
  | PosInf, Fin b => match sgn b with Lt => NegInf | _ => PosInf end
  | NegInf, Fin b => match sgn b with Lt => PosInf | _ => NegInf end
  | (PosInf | NegInf), (PosInf | NegInf) => NaN
  end.

(** [x - y]. *)
Definition sub (x y : number) : number :=
  match x, y with
  | NaN, _ | _, NaN => NaN
  | Fin a, Fin b => Fin (a - b)%Qc
  | PosInf, PosInf | NegInf, NegInf => NaN
  | PosInf, _ | _, NegInf => PosInf
  | NegInf, _ | _, PosInf => NegInf
  end.

(** The same number: like [Object.is], NaN is the same as NaN. *)
Definition sameValue (x y : number) : bool :=
  match x, y with
  | NaN, NaN | NegInf, NegInf | PosInf, PosInf => true
  | Fin a, Fin b => Qc_eq_bool a b
  | _, _ => false
  end.

(** [Number.isFinite]. *)
Definition isFinite (x : number) : bool :=
  match x with Fin _ => true | _ => false end.

(** [x] lies less than half a unit away from the integer [n], the lower end
    [n - 1/2] included: exactly the numbers [Math.round] sends to [n]. *)
Definition withinHalf (x : number) (n : Z) : bool :=
  match x with
  | Fin y => Qle_bool (inject_Z n - (1 # 2)) y
             && negb (Qle_bool (inject_Z n + (1 # 2)) y)
  | _ => false
  end.

Module Math.

(** [Math.round]: the integer closest to the argument, ties going up, that
    is [floor (x + 1/2)]; NaN and the infinities are returned as they are. *)
Definition round (x : number) : number :=
  match x with
  | Fin q => int (Qfloor (q + (1 # 2)))
  | _ => x
  end.

(** [Math.min] of two numbers: NaN if either is NaN, else the smaller. *)
Definition min (x y : number) : number :=
  match x, y with
  | NaN, _ | _, NaN => NaN
  | _, _ => if ltb y x then y else x
  end.

End Math.

(** Unary minus. *)
Definition neg (x : number) : number :=
  match x with
  | NaN => NaN
  | NegInf => PosInf
  | Fin q => Fin (- q)%Qc
  | PosInf => NegInf
  end.

(** *** Strings as numbers: StringToNumber

    The StringNumericLiteral grammar on ASCII strings: optional white space
    around either nothing (the value is 0), a decimal literal with optional
    sign, fraction and exponent, [Infinity], or an unsigned hexadecimal,
    octal or binary integer.  Anything else is NaN.  Only ASCII white
    space is trimmed, and a literal keeps its exact decimal value: it is
    neither rounded to a double nor taken to [Infinity] when too large.
    The properties below use the value of a string only where it is NaN
    or a small integer. *)

Definition isStrWhiteSpaceChar (c : ascii) : bool :=
  let n := N_of_ascii c in
  (((9 <=? n) && (n <=? 13)) || (n =? 32))%N.

Fixpoint skipWhiteSpace (l : list ascii) : list ascii :=
  match l with
  | c :: r => if isStrWhiteSpaceChar c then skipWhiteSpace r else l
  | [] => []
  end.

Definition trim (l : list ascii) : list ascii :=
  rev (skipWhiteSpace (rev (skipWhiteSpace l))).

(** Value of a digit in the given radix, if it is one. *)
Definition digitVal (radix : N) (c : ascii) : option N :=
  let n := N_of_ascii c in
  let v :=
    if ((48 <=? n) && (n <=? 57))%N then Some (n - 48)%N
    else if ((97 <=? n) && (n <=? 102))%N then Some (n - 87)%N
    else if ((65 <=? n) && (n <=? 70))%N then Some (n - 55)%N
    else None in
  match v with
  | Some d => if (d <? radix)%N then Some d else None
  | None => None
  end.

(** The longest run of digits at the head of [l]: its value, its length and
    what follows. *)
Fixpoint digits (radix : N) (l : list ascii) (acc cnt : N)
  : N * N * list ascii :=
  match l with
  | c :: r =>
      match digitVal radix c with
      | Some d => digits radix r (acc * radix + d)%N (cnt + 1)%N
      | None => (acc, cnt, l)
      end
  | [] => (acc, cnt, [])
  end.

Definition isChar (a b : string) (c : ascii) : bool :=
  match a, b with
  | String x _, String y _ => Ascii.eqb c x || Ascii.eqb c y
  | _, _ => false
  end.

(** [0x..], [0o..], [0b..]: at least one digit and nothing after them. *)
Definition nonDecimalIntegerLiteral (l : list ascii) : option number :=
  match l with
  | z :: x :: r =>
      if Ascii.eqb z "0" then
        let radix :=
          if isChar "x" "X" x then Some 16%N
          else if isChar "o" "O" x then Some 8%N
          else if isChar "b" "B" x then Some 2%N
          else None in
        match radix with
        | Some rd =>
            match digits rd r 0 0 with
            | (v, cnt, []) =>
                if (cnt =? 0)%N then None else Some (int (Z.of_N v))
            | _ => None
            end
        | None => None
        end
      else None
  | _ => None
  end.

(** ExponentPart, when present: [e] or [E], an optional sign, digits. *)
Definition exponentPart (l : list ascii) : option (Z * list ascii) :=
  match l with
  | c :: r =>
      if isChar "e" "E" c then
        let '(s, r') :=
          match r with
          | d :: r' =>
              if Ascii.eqb d "+" then (1, r')
              else if Ascii.eqb d "-" then (-1, r')
              else (1, r)
          | [] => (1, r)
          end in
        match digits 10 r' 0 0 with
        | (v, cnt, rest) =>
            if (cnt =? 0)%N then None else Some (s * Z.of_N v, rest)
        end
      else Some (0, l)
  | [] => Some (0, [])
  end.

Definition strUnsignedDecimalLiteral (l : list ascii) : option number :=
  if String.eqb (string_of_list_ascii l) "Infinity" then Some PosInf
  else
    match digits 10 l 0 0 with
    | (ip, ic, r1) =>
        let '(fp, fc, r2) :=
          match r1 with
          | c :: r => if Ascii.eqb c "." then digits 10 r 0 0 else (0%N, 0%N, r1)
          | [] => (0%N, 0%N, r1)
          end in
        if ((ic =? 0) && (fc =? 0))%N then None
        else
          match exponentPart r2 with
          | Some (e, []) =>
              let m := Z.of_N (ip * 10 ^ fc + fp) in
              Some (Fin (Q2Qc (inject_Z m * Qpower (inject_Z 10) (e - Z.of_N fc))))
          | _ => None
          end
    end.

Definition strDecimalLiteral (l : list ascii) : option number :=
  match l with
  | c :: r =>
      if Ascii.eqb c "+" then strUnsignedDecimalLiteral r
      else if Ascii.eqb c "-" then option_map neg (strUnsignedDecimalLiteral r)
      else strUnsignedDecimalLiteral l
  | [] => None
  end.

Definition StringToNumber (s : string) : number :=
  match trim (list_ascii_of_string s) with
  | [] => int 0
  | l =>
      match nonDecimalIntegerLiteral l with
      | Some n => n
      | None =>
          match strDecimalLiteral l with
          | Some n => n
          | None => NaN
          end
      end
  end.

(** *** Values

    The values that reach the module: [null], [undefined], booleans, numbers
    and strings. *)
Inductive value : Type :=
| Null
| Undefined
| Bool (b : bool)
| Num (n : number)
| Str (s : string).

Definition ToNumber (v : value) : number :=
  match v with
  | Null => int 0
  | Undefined => NaN
  | Bool b => if b then int 1 else int 0
  | Num n => n
  | Str s => StringToNumber s
  end.

Definition ToBoolean (v : value) : bool :=
  match v with
  | Null | Undefined => false
  | Bool b => b
  | Num NaN => false
  | Num (Fin q) => match sgn q with Eq => false | _ => true end
  | Num _ => true
  | Str s => negb (String.eqb s EmptyString)
  end.

(** [a || b]: [a] when it is truthy, otherwise [b]. *)
Definition orElse (a b : value) : value := if ToBoolean a then a else b.

(** A parameter declared [p = d]: the default replaces [undefined] only. *)
Definition defaultTo (d v : value) : value :=
  match v with Undefined => d | _ => v end.

Declare Scope js_scope.
Delimit Scope js_scope with js.
Bind Scope js_scope with number.
Notation "x <? y" := (ltb x y) : js_scope.
Notation "x >? y" := (gtb x y) : js_scope.
Notation "x <=? y" := (leb x y) : js_scope.
Notation "x >=? y" := (geb x y) : js_scope.
Notation "x * y" := (mul x y) : js_scope.
Notation "x / y" := (div x y) : js_scope.
Notation "x - y" := (sub x y) : js_scope.
Notation "a '|||' b" := (orElse a b) (at level 50, left associativity) : js_scope.

End JS.

Import JS.

(** ** The host: what the module imports from the platform

    [Dimensions.get('window')], [Platform.OS] and
    [PixelRatio.roundToNearestPixel] belong to the platform, not to the
    module; they are the fields of the environment every function reads. *)
Module Window.
Record t : Type := { width : number; height : number }.
End Window.

Record Env : Type := {
  Dimensions_window : Window.t;
  Platform_OS : string;
  PixelRatio_roundToNearestPixel : number -> number
}.

Definition screenWidth (env : Env) : number :=
  Window.width (Dimensions_window env).
Definition screenHeight (env : Env) : number :=
  Window.height (Dimensions_window env).

(** The platform replaces the window when the screen geometry changes. *)
Definition setWindow (w : Window.t) (env : Env) : Env :=
  {| Dimensions_window := w;
     Platform_OS := Platform_OS env;
     PixelRatio_roundToNearestPixel := PixelRatio_roundToNearestPixel env |}.

(** Turning the device swaps width and height. *)
Definition rotate (env : Env) : Env :=
  let w := Dimensions_window env in
  setWindow {| Window.width := Window.height w;
               Window.height := Window.width w |} env.

(** The platform's own [roundToNearestPixel] at pixel density [ratio]:
    [Math.round(layoutSize * ratio) / ratio]. *)
Definition pixelGrid (ratio : number) (layoutSize : number) : number :=
  (Math.round (layoutSize * ratio) / ratio)%js.

(** A device: window of [w] x [h] pixels, platform name, and the platform's
    pixel grid at an integer density. *)
Definition device (w h : Z) (os : string) (ratio : Z) : Env :=
  {| Dimensions_window := {| Window.width := int w; Window.height := int h |};
     Platform_OS := os;
     PixelRatio_roundToNearestPixel := pixelGrid (int ratio) |}.

Definition portrait_800x1024 : Window.t :=
  {| Window.width := int 800; Window.height := int 1024 |}.
Definition landscape_1024x800 : Window.t :=
  {| Window.width := int 1024; Window.height := int 800 |}.

(** ** src/utils/responsive.js *)
Module Responsive.

Local Open Scope string_scope.
Local Open Scope js_scope.

Definition getCurrentDimensions (env : Env) : Window.t := Dimensions_window env.

Definition wp (env : Env) (percentage : value) : number :=
  let width := Window.width (getCurrentDimensions env) in
  let value := (ToNumber percentage * width) / int 100 in
  Math.round (PixelRatio_roundToNearestPixel env value).

Definition hp (env : Env) (percentage : value) : number :=
  let height := Window.height (getCurrentDimensions env) in
  let value := (ToNumber percentage * height) / int 100 in
  Math.round (PixelRatio_roundToNearestPixel env value).

Definition rf (env : Env) (size : value) : number :=
  let screenData := getCurrentDimensions env in
  let scale := Window.width screenData / int 640 in
  let newSize := ToNumber size * scale in
  if String.eqb (Platform_OS env) "ios" then
    Math.round (PixelRatio_roundToNearestPixel env newSize)
  else
    Math.round (PixelRatio_roundToNearestPixel env newSize) - int 2.

Record Spacing : Type :=
  { xs : number; sm : number; md : number; lg : number; xl : number }.

(** The object literal bound to [spacing]. *)
Definition spacing (env : Env) : Spacing :=
  {| xs := wp env (Str "1%");
     sm := wp env (Str "2%");
     md := wp env (Str "4%");
     lg := wp env (Str "6%");
     xl := wp env (Str "8%") |}.

Record Typography : Type :=
  { h1 : number; h2 : number; h3 : number; h4 : number;
    body : number; caption : number; small : number }.

(** The object literal bound to [typography]. *)
Definition typography (env : Env) : Typography :=
  {| h1 := rf env (Num (int 28));
     h2 := rf env (Num (int 24));
     h3 := rf env (Num (int 20));
     h4 := rf env (Num (int 18));
     body := rf env (Num (int 16));
     caption := rf env (Num (int 14));
     small := rf env (Num (int 12)) |}.

Module breakpoints.
Definition small : number := int 360.
Definition medium : number := int 400.
Definition large : number := int 500.
Definition tablet : number := int 768.
Definition largeTablet : number := int 1024.
End breakpoints.

Definition getDeviceType (env : Env) (width : value) : string :=
  let width := defaultTo Null width in
  let screenWidth := Window.width (getCurrentDimensions env) in
  let screenHeight := Window.height (getCurrentDimensions env) in
  let currentWidth := width ||| Num screenWidth in
  let minDimension := Math.min (ToNumber currentWidth) screenHeight in
  if minDimension <? breakpoints.tablet then
    if ToNumber currentWidth <? breakpoints.small then "smallPhone"
    else if ToNumber currentWidth <? breakpoints.medium then "mediumPhone"
    else "largePhone"
  else
    if ToNumber currentWidth <? breakpoints.largeTablet then "tablet"
    else "largeTablet".

(** The [switch] of [getGridColumns]: columns by device type and
    orientation; the phone row is also the [default] branch. *)
Definition columnsFor (deviceType : string) (isLandscape : bool) : Z :=
  if (deviceType =? "smallPhone") || (deviceType =? "mediumPhone")
     || (deviceType =? "largePhone")
  then (if isLandscape then 2 else 1)%Z
  else if deviceType =? "tablet" then (if isLandscape then 4 else 2)%Z
  else if deviceType =? "largeTablet" then (if isLandscape then 5 else 3)%Z
  else (if isLandscape then 2 else 1)%Z.

(** [getGridColumns]; its [console.log] call has no part in the result. *)
Definition getGridColumns (env : Env) (width : value) : Z :=
  let width := defaultTo Null width in
  let screenWidth := Window.width (getCurrentDimensions env) in
  let screenHeight := Window.height (getCurrentDimensions env) in
  let currentWidth := width ||| Num screenWidth in
  let isLandscape := ToNumber currentWidth >? screenHeight in
  let deviceType := getDeviceType env currentWidth in
  columnsFor deviceType isLandscape.

Definition isTablet (env : Env) (width : value) : bool :=
  let width := defaultTo Null width in
  let deviceType := getDeviceType env width in
  (deviceType =? "tablet") || (deviceType =? "largeTablet").

Definition getAdaptivePadding (env : Env) : number :=
  let deviceType := getDeviceType env Undefined in
  if deviceType =? "smallPhone" then wp env (Str "4%")
  else if deviceType =? "mediumPhone" then wp env (Str "4%")
  else if deviceType =? "largePhone" then wp env (Str "6%")
  else if deviceType =? "tablet" then wp env (Str "8%")
  else wp env (Str "10%").

End Responsive.

(** ** The loaded module and the dimension source

    Importing the module evaluates the two object literals once, in the
    environment of that moment.  Afterwards the platform changes the window
    and then calls the listeners registered through
    [listenForOrientationChange]; listeners are the components' callbacks,
    which read the environment and update the components' own state. *)
Module Runtime.

Import Responsive.

Record Exports : Type := {
  exported_spacing : Spacing;
  exported_typography : Typography
}.

(** Evaluation of the module body. *)
Definition load (env : Env) : Exports :=
  {| exported_spacing := spacing env;
     exported_typography := typography env |}.

Section WithComponents.

(** State held by the components that subscribe. *)
Variable App : Type.

Definition Listener : Type := Env -> App -> App.

Record t : Type := {
  host : Env;
  exports : Exports;
  listeners : list Listener;
  app : App
}.

(** The application starts by loading the module. *)
Definition boot (env : Env) (a : App) : t :=
  {| host := env; exports := load env; listeners := []; app := a |}.

(** [listenForOrientationChange(callback)]: the registered function reads
    the dimensions, drops them and calls [callback]. *)
Definition listenForOrientationChange (callback : Listener) (r : t) : t :=
  let subscription : Listener :=
    fun env a => let _ := getCurrentDimensions env in callback env a in
  {| host := host r; exports := exports r;
     listeners := listeners r ++ [subscription]; app := app r |}.

(** A change of dimensions: the window is updated first, then every
    listener runs. *)
Definition change (w : Window.t) (r : t) : t :=
  let env := setWindow w (host r) in
  {| host := env; exports := exports r; listeners := listeners r;
     app := fold_left (fun a (l : Listener) => l env a) (listeners r) (app r) |}.

Inductive event : Type :=
| Change (w : Window.t)
| Listen (callback : Listener).

Definition step (r : t) (e : event) : t :=
  match e with
  | Change w => change w r
  | Listen callback => listenForOrientationChange callback r
  end.

Definition run (events : list event) (r : t) : t := fold_left step events r.

End WithComponents.

Arguments host {App}.
Arguments exports {App}.
Arguments listeners {App}.
Arguments app {App}.
Arguments boot {App}.
Arguments change {App}.
Arguments step {App}.
Arguments run {App}.
Arguments Change {App}.
Arguments Listen {App}.
Arguments listenForOrientationChange {App}.

End Runtime.

(** ** The callers

    The components that use the module: [ResponsiveGrid]
    (src/components/ResponsiveGrid.js), the dashboard screen and its header,
    as far as they compute something. *)

(** [a === b] on the values above. *)
Definition strictEquals (a b : value) : bool :=
  match a, b with
  | Null, Null | Undefined, Undefined => true
  | Bool x, Bool y => Bool.eqb x y
  | Num NaN, Num _ | Num _, Num NaN => false
  | Num x, Num y => sameValue x y
  | Str x, Str y => String.eqb x y
  | _, _ => false
  end.

(** [Array.prototype.slice(start, end)] with integer arguments: a negative
    index counts from the end, both are clamped to the array. *)
Definition slice {A : Type} (l : list A) (start end_ : Z) : list A :=
  let len := Z.of_nat (List.length l) in
  let k := if start <? 0 then Z.max (len + start) 0 else Z.min start len in
  let final := if end_ <? 0 then Z.max (len + end_) 0 else Z.min end_ len in
  firstn (Z.to_nat (final - k)) (skipn (Z.to_nat k) l).

Module ResponsiveGrid.

Import Responsive.

Section Rows.

(** The items of [data]; a cell of a row is an item or the [null] pushed to
    fill the row. *)
Context {A : Type}.

(** [while (row.length < columns) row.push(null)]. *)
Fixpoint pushNulls (missing : nat) (row : list (option A)) : list (option A) :=
  match missing with
  | O => row
  | S m => pushNulls m (row ++ [None])
  end.

Definition fillRow (columns : Z) (row : list (option A)) : list (option A) :=
  pushNulls (Z.to_nat (columns - Z.of_nat (List.length row))) row.

(** The [for] loop that builds [groupedData], for an integer [columns]
    (what [getGridColumns] returns and what [numColumns] is documented to
    be).  One unit of fuel is one pass through the body; [None] means the
    loop is still running when the fuel is spent. *)
Fixpoint groupLoop (fuel : nat) (data : list A) (columns : Z) (i : Z)
    (groupedData : list (list (option A))) : option (list (list (option A))) :=
  if i <? Z.of_nat (List.length data) then
    match fuel with
    | O => None
    | S fuel' =>
        let row := map Some (slice data i (i + columns)) in
        let row := fillRow columns row in
        groupLoop fuel' data columns (i + columns) (groupedData ++ [row])
    end
  else Some groupedData.

Definition groupData (fuel : nat) (data : list A) (columns : Z)
  : option (list (list (option A))) :=
  groupLoop fuel data columns 0 [].

End Rows.

(** The two pieces of state of the component. *)
Record State : Type := { st_columns : value; st_screenWidth : number }.

(** [useState(numColumns || getGridColumns())] and
    [useState(Dimensions.get('window').width)]. *)
Definition initialState (env : Env) (numColumns : value) : State :=
  {| st_columns := (numColumns ||| Num (int (getGridColumns env Undefined)))%js;
     st_screenWidth := Window.width (Dimensions_window env) |}.

Definition updateLayout (env : Env) (numColumns : value) (st : State) : State :=
  let width := Window.width (Dimensions_window env) in
  let st := {| st_columns := st_columns st; st_screenWidth := width |} in
  if negb (ToBoolean numColumns) then
    let newColumns := getGridColumns env (Num width) in
    {| st_columns := Num (int newColumns); st_screenWidth := st_screenWidth st |}
  else st.

(** The second effect: [if (numColumns) setColumns(numColumns)]. *)
Definition syncColumns (numColumns : value) (st : State) : State :=
  if ToBoolean numColumns then
    {| st_columns := numColumns; st_screenWidth := st_screenWidth st |}
  else st.

(** Mounting, for a given [numColumns] prop, runs the first effect
    ([updateLayout()], then the subscription) and the second. *)
Definition mount (env : Env) (numColumns : value) : State :=
  syncColumns numColumns (updateLayout env numColumns (initialState env numColumns)).

(** The component across a sequence of dimension changes, [updateLayout]
    being the registered listener. *)
Definition afterChanges (env : Env) (numColumns : value) (ws : list Window.t)
  : State :=
  fold_left (fun st w => updateLayout (setWindow w env) numColumns st)
            ws (mount env numColumns).

(** The state follows the window of [env]: the stored width is the
    window's, and [columns] is [numColumns] when that is truthy and the
    grid's own count otherwise. *)
Definition follows (env : Env) (numColumns : value) (st : State) : Prop :=
  st_screenWidth st = screenWidth env
  /\ st_columns st
     = if ToBoolean numColumns then numColumns
       else Num (int (getGridColumns env Undefined)).

End ResponsiveGrid.

Module DashboardScreen.

(** The updater given to [setOrientation] by the orientation listener. *)
Definition toggleOrientation (prev : string) : string :=
  if (prev =? "portrait")%string then "landscape" else "portrait".

(** The listener passed to [listenForOrientationChange]. *)
Definition orientationListener : Runtime.Listener string :=
  fun _ prev => toggleOrientation prev.

(** The screen after mounting with orientation [o] and a sequence of
    dimension changes. *)
Definition afterChanges (env : Env) (o : string) (ws : list Window.t)
  : Runtime.t string :=
  Runtime.run (Runtime.Listen orientationListener :: map Runtime.Change ws)
              (Runtime.boot env o).

Record Statistic : Type := {
  id : value;
  title : string;
  value_ : string;
  subtitle : string;
  icon : string;
  iconColor : string;
  trend : string;
  trendValue : string
}.

(** The update of [handleRefresh]: every statistic is copied, the one whose
    [id] is 1 with a new [value]. *)
Definition refresh (statistics : list Statistic) : list Statistic :=
  map (fun stat =>
         {| id := id stat;
            title := title stat;
            value_ := if strictEquals (id stat) (Num (int 1))
                      then "$25.2K"%string else value_ stat;
            subtitle := subtitle stat;
            icon := icon stat;
            iconColor := iconColor stat;
            trend := trend stat;
            trendValue := trendValue stat |})
      statistics.

End DashboardScreen.

Module DashboardHeader.

Import Responsive.

(** [styles.container.paddingTop], [StatusBar.currentHeight] being the
    platform's. *)
Definition paddingTop (env : Env) (StatusBar_currentHeight : value) : value :=
  if (Platform_OS env =? "ios")%string then Num (hp env (Str "6%"))
  else StatusBar_currentHeight.

(** [styles.tabletContainer.paddingTop]. *)
Definition tabletPaddingTop (env : Env) : number := hp env (Str "4%").

End DashboardHeader.

(** ** What the specification says, in its own terms *)
Module Spec.

Inductive DeviceClass : Type :=
| smallPhone | mediumPhone | largePhone | tablet | largeTablet.

(** The name the classifier returns for a class. *)
Definition name (c : DeviceClass) : string :=
  match c with
  | smallPhone => "smallPhone"
  | mediumPhone => "mediumPhone"
  | largePhone => "largePhone"
  | tablet => "tablet"
  | largeTablet => "largeTablet"
  end.

(** The lookup table device class x orientation -> columns. *)
Definition columns (c : DeviceClass) (landscape : bool) : Z :=
  match c, landscape with
  | (smallPhone | mediumPhone | largePhone), false => 1
  | (smallPhone | mediumPhone | largePhone), true => 2
  | tablet, false => 2
  | tablet, true => 4
  | largeTablet, false => 3
  | largeTablet, true => 5
  end.

(** The class order smallPhone -> ... -> largeTablet. *)
Definition rank (c : DeviceClass) : nat :=
  match c with
  | smallPhone => 0
  | mediumPhone => 1
  | largePhone => 2
  | tablet => 3
  | largeTablet => 4
  end.

(** The phone tier of a width: thresholds 360 and 400. *)
Definition phoneTier (w : number) : DeviceClass :=
  if (w <? int 360)%js then smallPhone
  else if ((int 360 <=? w) && (w <? int 400))%js%bool then mediumPhone
  else largePhone.

(** The tablet tier of a width: threshold 1024. *)
Definition tabletTier (w : number) : DeviceClass :=
  if (w <? int 1024)%js then tablet else largeTablet.

(** Classification of a viewport: the smaller dimension against 768
    decides between phone and tablet, the width picks the tier. *)
Definition classify (w h : number) : DeviceClass :=
  if (Math.min w h <? int 768)%js then
    if (w <? int 360)%js then smallPhone
    else if (w <? int 400)%js then mediumPhone
    else largePhone
  else
    if (w <? int 1024)%js then tablet else largeTablet.

(** Padding percentage by class. *)
Definition paddingPercent (c : DeviceClass) : Z :=
  match c with
  | smallPhone | mediumPhone => 4
  | largePhone => 6
  | tablet => 8
  | largeTablet => 10
  end.

(** Adaptive padding: the class's percentage of the current width, in
    pixels. *)
Definition adaptivePadding (env : Env) : number :=
  Responsive.wp env
    (Num (int (paddingPercent (classify (screenWidth env) (screenHeight env))))).

End Spec.

(** * Properties *)

(** ** Order facts on numbers *)
Section NumberOrder.

Local Open Scope js_scope.

Lemma sameValue_eq (x y : number) : sameValue x y = true -> x = y.
Proof.
  destruct x, y; simpl; intros H; try discriminate; try reflexivity.
  f_equal. now apply Qc_eq_bool_correct.
Qed.

Lemma ltb_not_NaN (x y : number) :
  (x <? y) = true -> isNaN x = false /\ isNaN y = false.
Proof. destruct x, y; simpl; intros H; try discriminate; auto. Qed.

Lemma leb_not_NaN (x y : number) :
  (x <=? y) = true -> isNaN x = false /\ isNaN y = false.
Proof. destruct x, y; simpl; intros H; try discriminate; auto. Qed.

Lemma leb_true_ltb (x y : number) : (x <=? y) = true -> (y <? x) = false.
Proof.
  unfold leb. destruct x, y; try discriminate; intros H;
    now apply negb_true_iff in H.
Qed.

Lemma ltb_false_leb (x y : number) :
  isNaN x = false -> isNaN y = false -> (y <? x) = false -> (x <=? y) = true.
Proof.
  unfold leb. destruct x, y; simpl; try discriminate; intros _ _ H;
    try reflexivity; try discriminate; now rewrite H.
Qed.

Lemma geb_negb_ltb (x y : number) :
  isNaN x = false -> isNaN y = false -> (x >=? y) = negb (x <? y).
Proof.
  unfold geb, leb. destruct x, y; simpl; try discriminate; reflexivity.
Qed.

Lemma min_not_NaN (x y : number) :
  isNaN (Math.min x y) = false -> isNaN x = false /\ isNaN y = false.
Proof. destruct x, y; simpl; intros H; try discriminate; auto. Qed.

Lemma Qccompare_swap (a b : Qc) : Qccompare b a = CompOpp (Qccompare a b).
Proof. unfold Qccompare. symmetry. apply Qcompare_antisym. Qed.

Lemma min_comm (x y : number) : Math.min x y = Math.min y x.
Proof.
  destruct x as [| |a|], y as [| |b|]; simpl; try reflexivity.
  rewrite (Qccompare_swap a b).
  destruct (Qccompare a b) eqn:E; simpl; try reflexivity.
  apply Qceq_alt in E. now subst.
Qed.

End NumberOrder.

(** ** The classifier and the grid *)
Section Classifier.

Import Responsive.
Local Open Scope string_scope.
Local Open Scope js_scope.

Variable env : Env.

Let w : number := Window.width (Dimensions_window env).
Let h : number := Window.height (Dimensions_window env).

(** Without an override the width in use is the window's, whatever its
    truthiness: [null || screenWidth] is [screenWidth]. *)
Lemma getDeviceType_default :
  getDeviceType env Undefined =
  if Math.min w h <? breakpoints.tablet then
    if w <? breakpoints.small then "smallPhone"
    else if w <? breakpoints.medium then "mediumPhone"
    else "largePhone"
  else if w <? breakpoints.largeTablet then "tablet" else "largeTablet".
Proof. reflexivity. Qed.

(** Passing the window's own width changes nothing: if it is falsy, [||]
    falls back to the same number. *)
Lemma getDeviceType_own_width :
  getDeviceType env (Num w) = getDeviceType env Undefined.
Proof.
  rewrite getDeviceType_default.
  unfold getDeviceType, getCurrentDimensions, defaultTo, orElse. fold w h.
  destruct (ToBoolean (Num w)); reflexivity.
Qed.

Lemma getGridColumns_default :
  getGridColumns env Undefined =
  columnsFor (getDeviceType env Undefined) (w >? h).
Proof.
  unfold getGridColumns, getCurrentDimensions, defaultTo. fold w h.
  change (Null ||| Num w) with (Num w).
  now rewrite getDeviceType_own_width.
Qed.

Lemma getDeviceType_classify :
  getDeviceType env Undefined = Spec.name (Spec.classify w h).
Proof.
  rewrite getDeviceType_default. unfold Spec.classify.
  change breakpoints.tablet with (int 768).
  change breakpoints.small with (int 360).
  change breakpoints.medium with (int 400).
  change breakpoints.largeTablet with (int 1024).
  destruct (Math.min w h <? int 768);
    [destruct (w <? int 360); [|destruct (w <? int 400)]
    |destruct (w <? int 1024)]; reflexivity.
Qed.

Lemma columnsFor_name (c : Spec.DeviceClass) (landscape : bool) :
  columnsFor (Spec.name c) landscape = Spec.columns c landscape.
Proof. destruct c, landscape; reflexivity. Qed.

End Classifier.

(** The [switch] never leaves the five table values, whatever string it is
    given. *)
Lemma columnsFor_range (deviceType : string) (isLandscape : bool) :
  In (Responsive.columnsFor deviceType isLandscape) [1; 2; 3; 4; 5].
Proof.
  unfold Responsive.columnsFor.
  repeat match goal with
         | |- context [String.eqb ?a ?b] => destruct (String.eqb a b)
         end;
    destruct isLandscape; simpl; tauto.
Qed.

Section GridClaims.

Import Responsive.
Local Open Scope string_scope.
Local Open Scope js_scope.


(** C1. For every viewport with positive width and height, [getGridColumns]
    returns the entry of the device class x orientation table, the class
    being the one the classifier returns and landscape meaning
    [width > height]; a window of 800 x 1024 gets 2 columns and one of
    1024 x 800 gets 5, on every platform. *)
Theorem getGridColumns_table :
  (forall env : Env,
      (int 0 <? screenWidth env) = true ->
      (int 0 <? screenHeight env) = true ->
      getDeviceType env Undefined
        = Spec.name (Spec.classify (screenWidth env) (screenHeight env))
      /\ getGridColumns env Undefined
        = Spec.columns (Spec.classify (screenWidth env) (screenHeight env))
                       (screenWidth env >? screenHeight env))
  /\ (forall env, getGridColumns (setWindow portrait_800x1024 env) Undefined = 2%Z)
  /\ (forall env, getGridColumns (setWindow landscape_1024x800 env) Undefined = 5%Z).
Proof.
  split; [|split].
  - intros env _ _. split.
    + apply getDeviceType_classify.
    + rewrite getGridColumns_default, getDeviceType_classify.
      apply columnsFor_name.
  - intros env. rewrite getGridColumns_default. reflexivity.
  - intros env. rewrite getGridColumns_default. reflexivity.
Qed.

Lemma getGridColumns_table_witness :
  let env := device 1280 800 "android" 2 in
  (int 0 <? screenWidth env) = true
  /\ (int 0 <? screenHeight env) = true
  /\ getDeviceType env Undefined = "largeTablet"
  /\ getGridColumns env Undefined = 5%Z.
Proof.
  intros env. split; [reflexivity|]. split; [reflexivity|].
  exact (proj1 getGridColumns_table env eq_refl eq_refl).
Defined.

(** C2. When the smaller of width and height is at least 768, the class is
    [tablet] for a width below 1024 and [largeTablet] from 1024 on,
    whichever of the two dimensions is the larger one: a viewport of the
    same width and another height (at least 768 too) gets the same class,
    and the turned device stays on the tablet side of the split, following
    the same rule with its own width. *)
Theorem getDeviceType_tablet_tier (env : Env) :
  (breakpoints.tablet <=? Math.min (screenWidth env) (screenHeight env)) = true ->
  ((screenWidth env <? int 1024) = true ->
     getDeviceType env Undefined = "tablet")
  /\ ((screenWidth env >=? int 1024) = true ->
     getDeviceType env Undefined = "largeTablet")
  /\ (screenWidth env >=? int 1024) = negb (screenWidth env <? int 1024)
  /\ (forall env' : Env,
      screenWidth env' = screenWidth env ->
      (breakpoints.tablet
         <=? Math.min (screenWidth env') (screenHeight env')) = true ->
      getDeviceType env' Undefined = getDeviceType env Undefined)
  /\ isTablet env Undefined = true
  /\ isTablet (rotate env) Undefined = true
  /\ getDeviceType (rotate env) Undefined
     = Spec.name (Spec.tabletTier (screenHeight env)).
Proof.
  intros Hmin.
  assert (Hnan : isNaN (screenWidth env) = false).
  { destruct (leb_not_NaN _ _ Hmin) as [_ Hm].
    now apply min_not_NaN in Hm. }
  assert (Hrule : forall e : Env,
             (breakpoints.tablet
                <=? Math.min (screenWidth e) (screenHeight e)) = true ->
             getDeviceType e Undefined
             = Spec.name (Spec.tabletTier (screenWidth e))).
  { intros e He. apply leb_true_ltb in He.
    rewrite getDeviceType_default. fold (screenWidth e) (screenHeight e).
    rewrite He. unfold Spec.tabletTier.
    change breakpoints.largeTablet with (int 1024).
    now destruct (screenWidth e <? int 1024). }
  assert (Hrot : getDeviceType (rotate env) Undefined
                 = Spec.name (Spec.tabletTier (screenHeight env))).
  { apply (Hrule (rotate env)).
    change (screenWidth (rotate env)) with (screenHeight env).
    change (screenHeight (rotate env)) with (screenWidth env).
    now rewrite min_comm. }
  assert (Htab : forall e c,
             getDeviceType e Undefined = Spec.name (Spec.tabletTier c) ->
             isTablet e Undefined = true).
  { intros e c He. unfold isTablet, defaultTo.
    change (getDeviceType e Null) with (getDeviceType e Undefined).
    rewrite He. unfold Spec.tabletTier. now destruct (c <? int 1024). }
  pose proof (Hrule env Hmin) as Hdev. unfold Spec.tabletTier in Hdev.
  split; [|split; [|split; [|split; [|split; [|split]]]]].
  - intros H. now rewrite Hdev, H.
  - intros H. apply leb_true_ltb in H. now rewrite Hdev, H.
  - now apply geb_negb_ltb.
  - intros env' Hw Hmin'. rewrite (Hrule env' Hmin'), (Hrule env Hmin).
    now rewrite Hw.
  - exact (Htab env _ (Hrule env Hmin)).
  - exact (Htab _ _ Hrot).
  - exact Hrot.
Qed.

Lemma getDeviceType_tablet_tier_witness :
  let env := device 800 1024 "ios" 2 in
  (breakpoints.tablet <=? Math.min (screenWidth env) (screenHeight env)) = true
  /\ getDeviceType env Undefined = "tablet"
  /\ getDeviceType (rotate env) Undefined = "largeTablet".
Proof.
  intros env.
  pose proof (getDeviceType_tablet_tier env eq_refl) as [H1 [_ [_ [_ [_ [_ H6]]]]]].
  split; [reflexivity|]. split; [exact (H1 eq_refl)|exact H6].
Defined.

(** C5. Two viewports of the same width whose smaller dimension is below
    768 get the same class, and that class is the phone tier of the width:
    [smallPhone] below 360, [mediumPhone] from 360 to below 400,
    [largePhone] otherwise. *)
Theorem getDeviceType_phone_tier (env1 env2 : Env) :
  screenWidth env1 = screenWidth env2 ->
  (Math.min (screenWidth env1) (screenHeight env1) <? breakpoints.tablet) = true ->
  (Math.min (screenWidth env2) (screenHeight env2) <? breakpoints.tablet) = true ->
  getDeviceType env1 Undefined = getDeviceType env2 Undefined
  /\ getDeviceType env1 Undefined = Spec.name (Spec.phoneTier (screenWidth env1)).
Proof.
  intros Hw H1 H2.
  assert (Hnan : isNaN (screenWidth env1) = false).
  { destruct (ltb_not_NaN _ _ H1) as [Hm _]. now apply min_not_NaN in Hm. }
  assert (Hphone : forall env,
             (Math.min (screenWidth env) (screenHeight env) <? breakpoints.tablet) = true ->
             getDeviceType env Undefined =
             if screenWidth env <? int 360 then "smallPhone"
             else if screenWidth env <? int 400 then "mediumPhone"
             else "largePhone").
  { intros env H. rewrite getDeviceType_default.
    fold (screenWidth env) (screenHeight env). now rewrite H. }
  rewrite (Hphone env1 H1), (Hphone env2 H2), <- Hw. split; [reflexivity|].
  unfold Spec.phoneTier.
  destruct (screenWidth env1 <? int 360) eqn:E360; [reflexivity|].
  rewrite (ltb_false_leb (int 360) (screenWidth env1) eq_refl Hnan E360).
  now destruct (screenWidth env1 <? int 400).
Qed.

Lemma getDeviceType_phone_tier_witness :
  let env1 := device 375 667 "ios" 2 in
  let env2 := device 375 812 "android" 3 in
  getDeviceType env1 Undefined = getDeviceType env2 Undefined
  /\ getDeviceType env1 Undefined = "mediumPhone".
Proof.
  intros env1 env2.
  exact (getDeviceType_phone_tier env1 env2 eq_refl eq_refl eq_refl).
Defined.

(** C6. The column count never drops when a device of a given class goes
    from portrait to landscape, and, in a given orientation, never drops
    along smallPhone, mediumPhone, largePhone, tablet, largeTablet; the
    same holds of [getGridColumns] on two viewports of one class. *)
Theorem getGridColumns_monotone :
  (forall deviceType : string,
      (columnsFor deviceType false <= columnsFor deviceType true)%Z)
  /\ (forall (c1 c2 : Spec.DeviceClass) (isLandscape : bool),
      (Spec.rank c1 <= Spec.rank c2)%nat ->
      (columnsFor (Spec.name c1) isLandscape
       <= columnsFor (Spec.name c2) isLandscape)%Z)
  /\ (forall env1 env2 : Env,
      getDeviceType env1 Undefined = getDeviceType env2 Undefined ->
      (screenWidth env1 >? screenHeight env1) = false ->
      (screenWidth env2 >? screenHeight env2) = true ->
      (getGridColumns env1 Undefined <= getGridColumns env2 Undefined)%Z).
Proof.
  assert (Hor : forall deviceType : string,
             (columnsFor deviceType false <= columnsFor deviceType true)%Z).
  { intros deviceType. unfold columnsFor.
    repeat match goal with
           | |- context [String.eqb ?a ?b] => destruct (String.eqb a b)
           end; simpl; lia. }
  split; [exact Hor|split].
  - intros c1 c2 isLandscape Hrank.
    destruct c1, c2, isLandscape; simpl in Hrank; try lia;
      vm_compute; discriminate.
  - intros env1 env2 Hsame Hp Hl.
    rewrite !getGridColumns_default.
    fold (screenWidth env1) (screenHeight env1)
         (screenWidth env2) (screenHeight env2).
    rewrite Hp, Hl, Hsame. apply Hor.
Qed.

Lemma getGridColumns_monotone_witness :
  (columnsFor "smallPhone" true <= columnsFor "tablet" true)%Z
  /\ (getGridColumns (device 800 1024 "ios" 2) Undefined
      <= getGridColumns (device 1000 800 "ios" 2) Undefined)%Z.
Proof.
  destruct getGridColumns_monotone as [_ [Hclass Henv]]. split.
  - apply (Hclass Spec.smallPhone Spec.tablet true). simpl. lia.
  - apply (Henv (device 800 1024 "ios" 2) (device 1000 800 "ios" 2));
      reflexivity.
Defined.

(** C7. Whatever the window holds (zero, negative, infinite or NaN
    dimensions included) and whatever is passed as width, [getGridColumns]
    returns one of 1, 2, 3, 4, 5; it is never below 1. *)
Theorem getGridColumns_range (env : Env) (width : value) :
  In (getGridColumns env width) [1; 2; 3; 4; 5]
  /\ (1 <= getGridColumns env width)%Z.
Proof.
  assert (H : In (getGridColumns env width) [1; 2; 3; 4; 5])
    by apply columnsFor_range.
  split; [exact H|]. simpl in H. lia.
Qed.

End GridClaims.

(** ** Rounding and exact arithmetic on integers *)
Section Rounding.

Local Open Scope js_scope.

Lemma Qfloor_unique (x : Q) (n : Z) :
  (inject_Z n <= x)%Q -> (x < inject_Z n + 1)%Q -> Qfloor x = n.
Proof.
  intros Hlo Hhi.
  pose proof (Qfloor_le x) as Hf1. pose proof (Qlt_floor x) as Hf2.
  assert (H1 : (n < Qfloor x + 1)%Z).
  { rewrite Zlt_Qlt. eapply Qle_lt_trans; eassumption. }
  assert (H2 : (Qfloor x < n + 1)%Z).
  { rewrite Zlt_Qlt, inject_Z_plus. eapply Qle_lt_trans; eassumption. }
  lia.
Qed.

Lemma round_withinHalf (x : number) (n : Z) :
  withinHalf x n = true -> Math.round x = int n.
Proof.
  unfold withinHalf, Math.round.
  destruct x as [| |y|]; try discriminate.
  intros H. apply andb_true_iff in H. destruct H as [Hlo Hhi].
  apply Qle_bool_iff in Hlo. apply negb_true_iff in Hhi.
  assert (Hhi' : (y < inject_Z n + (1 # 2))%Q).
  { apply Qnot_le_lt. intros Hc. apply Qle_bool_iff in Hc. congruence. }
  f_equal. f_equal. apply Qfloor_unique; lra.
Qed.

Lemma int_sub (a b : Z) : int a - int b = int (a - b).
Proof.
  unfold int, sub. f_equal. apply Qc_is_canon.
  unfold Qcminus, Qcplus, Qcopp, Q2Qc; cbn [this].
  rewrite !Qred_correct. unfold Z.sub.
  rewrite inject_Z_plus, inject_Z_opp. reflexivity.
Qed.

(** At the reference width the scale is 1 and scaling changes nothing. *)
Lemma mul_scale_one (x : number) : x * (int 640 / int 640) = x.
Proof.
  assert (E : int 640 / int 640 = Fin (Q2Qc 1)).
  { unfold int, div. simpl. f_equal. apply Qc_is_canon. reflexivity. }
  rewrite E. destruct x as [| |q|]; try reflexivity.
  simpl. f_equal. apply Qcmult_1_r.
Qed.

Lemma mul_zero_finite (x : number) :
  isFinite x = true -> int 0 * (x / int 640) = int 0.
Proof.
  destruct x as [| |q|]; try discriminate. intros _.
  unfold int, div. simpl. f_equal. apply Qcmult_0_l.
Qed.

(** The platform's pixel grid keeps NaN. *)
Lemma pixelGrid_NaN (ratio : number) : pixelGrid ratio NaN = NaN.
Proof. reflexivity. Qed.

End Rounding.

(** ** Percentages and font sizes *)
Section Scaling.

Import Responsive.
Local Open Scope string_scope.
Local Open Scope js_scope.

Lemma withinHalf_int (n : Z) : withinHalf (int n) n = true.
Proof.
  unfold withinHalf, int, Q2Qc; cbn [this].
  apply andb_true_iff. split.
  - apply Qle_bool_iff. rewrite Qred_correct. lra.
  - apply negb_true_iff. apply not_true_iff_false. intros Hc.
    apply Qle_bool_iff in Hc. rewrite Qred_correct in Hc. lra.
Qed.

Lemma round_int (n : Z) : Math.round (int n) = int n.
Proof. apply round_withinHalf, withinHalf_int. Qed.

(** [rf] at the reference width, for a size the pixel grid keeps within
    half a pixel. *)
Lemma rf_at_640 (env : Env) (n : Z) :
  screenWidth env = int 640 ->
  withinHalf (PixelRatio_roundToNearestPixel env (int n)) n = true ->
  rf env (Num (int n))
  = if Platform_OS env =? "ios" then int n else int (n - 2).
Proof.
  intros Hw Hnear. unfold rf, getCurrentDimensions.
  fold (screenWidth env). rewrite Hw. cbn [ToNumber].
  rewrite mul_scale_one, (round_withinHalf _ _ Hnear), int_sub.
  reflexivity.
Qed.

(** A percentage written as a string with a percent sign is NaN as a
    number, and NaN goes through [wp] when the pixel grid keeps it. *)
Lemma wp_NaN (env : Env) (percentage : value) :
  ToNumber percentage = NaN ->
  PixelRatio_roundToNearestPixel env NaN = NaN ->
  wp env percentage = NaN.
Proof.
  intros Hp Hgrid. unfold wp. rewrite Hp. cbn [mul div].
  now rewrite Hgrid.
Qed.

(** C3 (the code against the claim). On a 320 x 640 phone the class is
    [smallPhone] and 4% of the width is 13 pixels, but [getAdaptivePadding]
    passes the string ['4%'] to [wp] and returns NaN. *)
Theorem getAdaptivePadding_320x640 :
  let env := device 320 640 "ios" 2 in
  getDeviceType env Undefined = "smallPhone"
  /\ Spec.adaptivePadding env = int 13
  /\ getAdaptivePadding env = NaN.
Proof. intros env. repeat split. Qed.

(** C4 (as stated, refuted). At width 640 on the platform without the
    offset, a base size of one half comes back as 1: the pixel grid of
    density 2 keeps 0.5 and [Math.round] moves it to the next integer. *)
Lemma rf_half_at_640 :
  let env := device 640 360 "ios" 2 in
  let half := Fin (Q2Qc (1 # 2)) in
  screenWidth env = int 640
  /\ PixelRatio_roundToNearestPixel env half = half
  /\ rf env (Num half) = int 1
  /\ rf env (Num half) <> half.
Proof.
  intros env half.
  assert (E : rf env (Num half) = int 1) by reflexivity.
  repeat split; try reflexivity.
  rewrite E. intros H. inversion H.
Qed.

(** C4 (amended). At width 640, for an integer base size [n] with
    [-2^53 <= n - 2] and [n <= 2^53] (so that [n] and [n - 2] are both
    doubles and the subtraction of the code is exact) which the pixel grid
    keeps within half a pixel, [rf] returns the base size on ios and the
    base size minus 2 on every other platform; with size 28 that is 28 and
    26. *)
Theorem rf_reference_width (env : Env) (n : Z) :
  screenWidth env = int 640 ->
  (- 2 ^ 53 <= n - 2)%Z ->
  (n <= 2 ^ 53)%Z ->
  withinHalf (PixelRatio_roundToNearestPixel env (int n)) n = true ->
  rf env (Num (int n))
  = if Platform_OS env =? "ios" then int n else int (n - 2).
Proof. intros Hw _ _ Hnear. now apply rf_at_640. Qed.

Lemma rf_reference_width_witness :
  rf (device 640 360 "ios" 2) (Num (int 28)) = int 28
  /\ rf (device 640 360 "android" 2) (Num (int 28)) = int 26.
Proof.
  split.
  - apply (rf_reference_width (device 640 360 "ios" 2) 28);
      [reflexivity | vm_compute; discriminate | vm_compute; discriminate
      | reflexivity].
  - apply (rf_reference_width (device 640 360 "android" 2) 28);
      [reflexivity | vm_compute; discriminate | vm_compute; discriminate
      | reflexivity].
Defined.

(** C9. [rf] has no floor: for a base size at most 0 the result is the
    rounded value of the pixel grid at [size * (width / 640)], minus 2
    off ios; when the pixel grid maps 0 to 0 and the width is finite,
    [rf(0)] is 0 on ios and -2 elsewhere. *)
Theorem rf_no_floor (env : Env) (size : number) :
  (size <=? int 0) = true ->
  rf env (Num size)
  = (let raw := Math.round (PixelRatio_roundToNearestPixel env
                              (size * (screenWidth env / int 640))) in
     if Platform_OS env =? "ios" then raw else raw - int 2)
  /\ (PixelRatio_roundToNearestPixel env (int 0) = int 0 ->
      isFinite (screenWidth env) = true ->
      rf env (Num (int 0))
      = if Platform_OS env =? "ios" then int 0 else int (-2)).
Proof.
  intros _. split.
  - unfold rf, getCurrentDimensions. fold (screenWidth env). cbn [ToNumber].
    now destruct (Platform_OS env =? "ios").
  - intros Hzero Hfin. unfold rf, getCurrentDimensions.
    fold (screenWidth env). cbn [ToNumber].
    rewrite (mul_zero_finite _ Hfin), Hzero, round_int, int_sub.
    reflexivity.
Qed.

Lemma rf_no_floor_witness :
  (int 0 <=? int 0) = true
  /\ rf (device 360 640 "ios" 2) (Num (int 0)) = int 0
  /\ rf (device 360 640 "android" 2) (Num (int 0)) = int (-2)
  /\ rf (device 360 640 "android" 2) (Num (int (-16))) = int (-11).
Proof.
  split; [reflexivity|]. split; [|split].
  - apply (proj2 (rf_no_floor (device 360 640 "ios" 2) (int 0) eq_refl));
      [apply sameValue_eq; reflexivity | reflexivity].
  - apply (proj2 (rf_no_floor (device 360 640 "android" 2) (int 0) eq_refl));
      [apply sameValue_eq; reflexivity | reflexivity].
  - exact (proj1 (rf_no_floor (device 360 640 "android" 2) (int (-16)) eq_refl)).
Defined.

(** C10. The percentage strings are NaN as numbers, so their product with
    any width is NaN; with a pixel grid that keeps NaN, every field of
    [spacing] is NaN, every [wp] call of [getAdaptivePadding] is NaN, and so
    is its result. *)
Theorem spacing_NaN (env : Env) :
  PixelRatio_roundToNearestPixel env NaN = NaN ->
  (forall (s : string) (width : number),
      In s ["1%"; "2%"; "4%"; "6%"; "8%"; "10%"] ->
      ToNumber (Str s) * width = NaN)
  /\ spacing env = {| xs := NaN; sm := NaN; md := NaN; lg := NaN; xl := NaN |}
  /\ Runtime.exported_spacing (Runtime.load env)
     = {| xs := NaN; sm := NaN; md := NaN; lg := NaN; xl := NaN |}
  /\ (forall s : string,
      In s ["4%"; "6%"; "8%"; "10%"] -> wp env (Str s) = NaN)
  /\ getAdaptivePadding env = NaN.
Proof.
  intros Hgrid.
  assert (Hstr : forall s, In s ["1%"; "2%"; "4%"; "6%"; "8%"; "10%"] ->
                           ToNumber (Str s) = NaN).
  { intros s Hs. simpl in Hs.
    repeat (destruct Hs as [<-|Hs]; [reflexivity|]). contradiction. }
  assert (Hwp : forall s, In s ["1%"; "2%"; "4%"; "6%"; "8%"; "10%"] ->
                          wp env (Str s) = NaN).
  { intros s Hs. apply wp_NaN; [now apply Hstr | exact Hgrid]. }
  assert (Hsp : spacing env
                = {| xs := NaN; sm := NaN; md := NaN; lg := NaN; xl := NaN |}).
  { unfold spacing. rewrite !Hwp; simpl; tauto. }
  split; [|split; [|split; [|split]]].
  - intros s width Hs. now rewrite (Hstr s Hs).
  - exact Hsp.
  - exact Hsp.
  - intros s Hs. apply Hwp. simpl in *. tauto.
  - unfold getAdaptivePadding.
    repeat match goal with
           | |- context [String.eqb ?a ?b] => destruct (String.eqb a b)
           end; apply Hwp; simpl; tauto.
Qed.

Lemma spacing_NaN_witness :
  let env := device 360 640 "android" 3 in
  xs (spacing env) = NaN /\ getAdaptivePadding env = NaN.
Proof.
  intros env.
  destruct (spacing_NaN env (pixelGrid_NaN (int 3))) as [_ [Hs [_ [_ Hp]]]].
  split; [now rewrite Hs | exact Hp].
Defined.

End Scaling.

(** ** The load-time tables *)
Section LoadTime.

Import Responsive Runtime.

Context {App : Type}.

Lemma step_exports (r : Runtime.t App) (e : event App) :
  exports (step r e) = exports r.
Proof. destruct e; reflexivity. Qed.

Lemma run_exports (events : list (event App)) (r : Runtime.t App) :
  exports (run events r) = exports r.
Proof.
  revert r. induction events as [|e events IH]; intros r.
  - reflexivity.
  - change (run (e :: events) r) with (run events (step r e)).
    rewrite IH. apply step_exports.
Qed.

(** A change of dimensions does reach the environment the functions read. *)
Lemma change_window (w : Window.t) (r : Runtime.t App) :
  Dimensions_window (host (change w r)) = w.
Proof. reflexivity. Qed.

(** C8. [spacing] and [typography] are evaluated once, when the module is
    loaded, in the environment of that moment; after any sequence of
    dimension changes and listener registrations the exported objects
    still hold those values. *)
Theorem exports_frozen (env : Env) (a : App) (events : list (event App)) :
  exports (boot env a)
  = {| exported_spacing := spacing env; exported_typography := typography env |}
  /\ exported_spacing (exports (run events (boot env a))) = spacing env
  /\ exported_typography (exports (run events (boot env a))) = typography env.
Proof.
  split; [reflexivity|]. rewrite run_exports. split; reflexivity.
Qed.

End LoadTime.

(** After a turn from 640 x 1280 to 1280 x 640 the exported [h1] is still
    the 28 of load time, while [rf(28)] now gives 56. *)
Example typography_stale :
  let turned := {| Window.width := int 1280; Window.height := int 640 |} in
  let r := Runtime.run [Runtime.Change turned]
             (Runtime.boot (device 640 1280 "ios" 2) tt) in
  Responsive.h1 (Runtime.exported_typography (Runtime.exports r)) = int 28
  /\ Responsive.rf (Runtime.host r) (Num (int 28)) = int 56.
Proof. split; reflexivity. Qed.

(** ** The width argument of the classifier and of the grid *)
Section WidthArgument.

Import Responsive.
Local Open Scope string_scope.
Local Open Scope js_scope.

Variable env : Env.

Lemma ToBoolean_defaultTo (v : value) :
  ToBoolean (defaultTo Null v) = ToBoolean v.
Proof. destruct v; reflexivity. Qed.

Lemma getDeviceType_falsy (v : value) :
  ToBoolean v = false -> getDeviceType env v = getDeviceType env Undefined.
Proof.
  intros Hv. rewrite getDeviceType_default.
  unfold getDeviceType, getCurrentDimensions, orElse.
  rewrite ToBoolean_defaultTo, Hv. reflexivity.
Qed.

Lemma getDeviceType_truthy (v : value) :
  ToBoolean v = true ->
  getDeviceType env v
  = Spec.name (Spec.classify (ToNumber v) (screenHeight env)).
Proof.
  intros Hv. unfold getDeviceType, getCurrentDimensions, orElse.
  rewrite ToBoolean_defaultTo, Hv.
  assert (Hd : defaultTo Null v = v) by (destruct v; try reflexivity; discriminate).
  rewrite Hd. fold (screenHeight env). unfold Spec.classify.
  change breakpoints.tablet with (int 768).
  change breakpoints.small with (int 360).
  change breakpoints.medium with (int 400).
  change breakpoints.largeTablet with (int 1024).
  destruct (Math.min (ToNumber v) (screenHeight env) <? int 768);
    [destruct (ToNumber v <? int 360); [|destruct (ToNumber v <? int 400)]
    |destruct (ToNumber v <? int 1024)]; reflexivity.
Qed.

Lemma getGridColumns_falsy (v : value) :
  ToBoolean v = false -> getGridColumns env v = getGridColumns env Undefined.
Proof.
  intros Hv. rewrite getGridColumns_default.
  unfold getGridColumns, getCurrentDimensions, orElse.
  rewrite ToBoolean_defaultTo, Hv. now rewrite getDeviceType_own_width.
Qed.

Lemma getGridColumns_truthy (v : value) :
  ToBoolean v = true ->
  getGridColumns env v
  = Spec.columns (Spec.classify (ToNumber v) (screenHeight env))
                 (ToNumber v >? screenHeight env).
Proof.
  intros Hv. unfold getGridColumns, getCurrentDimensions, orElse.
  rewrite ToBoolean_defaultTo, Hv.
  assert (Hd : defaultTo Null v = v)
    by (destruct v; try reflexivity; discriminate).
  rewrite Hd, (getDeviceType_truthy v Hv). apply columnsFor_name.
Qed.

(** Called with the window's own width, as [ResponsiveGrid] does, the grid
    answers as without argument. *)
Lemma getGridColumns_own_width :
  getGridColumns env (Num (screenWidth env)) = getGridColumns env Undefined.
Proof.
  destruct (ToBoolean (Num (screenWidth env))) eqn:Hv.
  - rewrite (getGridColumns_truthy _ Hv), getGridColumns_default,
      getDeviceType_classify.
    symmetry. apply columnsFor_name.
  - now apply getGridColumns_falsy.
Qed.

(** X1. A falsy width argument ([null], [undefined], [0], NaN, the empty
    string, [false]) is ignored: classifier, grid and [isTablet] answer as
    if called without argument. *)
Theorem width_argument_falsy (v : value) :
  ToBoolean v = false ->
  getDeviceType env v = getDeviceType env Undefined
  /\ getGridColumns env v = getGridColumns env Undefined
  /\ isTablet env v = isTablet env Undefined.
Proof.
  intros Hv. split; [now apply getDeviceType_falsy|split].
  - now apply getGridColumns_falsy.
  - unfold isTablet.
    rewrite (getDeviceType_falsy (defaultTo Null v))
      by now rewrite ToBoolean_defaultTo.
    reflexivity.
Qed.

End WidthArgument.

Lemma width_argument_falsy_witness :
  Responsive.getGridColumns (device 1024 800 "ios" 2) (Num (int 0)) = 5
  /\ Responsive.getDeviceType (device 1024 800 "ios" 2) (Str EmptyString)
     = "largeTablet"%string.
Proof.
  split.
  - exact (proj1 (proj2 (width_argument_falsy (device 1024 800 "ios" 2)
                           (Num (int 0)) eq_refl))).
  - exact (proj1 (width_argument_falsy (device 1024 800 "ios" 2)
                    (Str EmptyString) eq_refl)).
Defined.

Section WidthArgumentTruthy.

Import Responsive.
Local Open Scope string_scope.
Local Open Scope js_scope.

(** X2. A truthy width argument replaces the window's width everywhere: the
    class is that of (argument, window height), the orientation test
    compares the argument with the window height, and the window's own
    width plays no part. *)
Theorem width_argument_truthy (env : Env) (v : value) :
  ToBoolean v = true ->
  getDeviceType env v
  = Spec.name (Spec.classify (ToNumber v) (screenHeight env))
  /\ getGridColumns env v
     = Spec.columns (Spec.classify (ToNumber v) (screenHeight env))
                    (ToNumber v >? screenHeight env)
  /\ (forall env' : Env,
      screenHeight env' = screenHeight env ->
      getDeviceType env' v = getDeviceType env v
      /\ getGridColumns env' v = getGridColumns env v).
Proof.
  intros Hv.
  split; [now apply getDeviceType_truthy|].
  split; [now apply getGridColumns_truthy|].
  intros env' Hh. split.
  - now rewrite !getDeviceType_truthy, Hh.
  - now rewrite !getGridColumns_truthy, Hh.
Qed.

Lemma width_argument_truthy_witness :
  getDeviceType (device 320 800 "ios" 2) (Str "1200") = "largeTablet"
  /\ getGridColumns (device 320 800 "ios" 2) (Str "1200") = 5.
Proof.
  destruct (width_argument_truthy (device 320 800 "ios" 2) (Str "1200") eq_refl)
    as [Hd [Hc _]].
  split; [exact Hd | exact Hc].
Defined.

(** X3. NaN falls through every comparison.  When the width in use is NaN
    (a truthy argument that is not a number, such as a non-numeric string,
    or a window whose width is NaN), the class is [largeTablet] and the
    grid has 3 columns, whatever the height. *)
Theorem width_NaN_largeTablet (env : Env) :
  (forall v : value,
      ToBoolean v = true -> ToNumber v = NaN ->
      getDeviceType env v = "largeTablet" /\ getGridColumns env v = 3%Z)
  /\ (screenWidth env = NaN ->
      getDeviceType env Undefined = "largeTablet"
      /\ getGridColumns env Undefined = 3%Z).
Proof.
  split.
  - intros v Hv Hn.
    rewrite (getDeviceType_truthy env v Hv), (getGridColumns_truthy env v Hv), Hn.
    destruct (screenHeight env); split; reflexivity.
  - intros Hw. rewrite getGridColumns_default, getDeviceType_classify.
    fold (screenWidth env) (screenHeight env). rewrite Hw.
    destruct (screenHeight env); split; reflexivity.
Qed.

Lemma width_NaN_largeTablet_witness :
  let unknown := {| Window.width := NaN; Window.height := int 640 |} in
  (getDeviceType (device 320 640 "ios" 2) (Str "auto") = "largeTablet"
   /\ getGridColumns (device 320 640 "ios" 2) (Str "auto") = 3%Z)
  /\ getGridColumns (setWindow unknown (device 320 640 "ios" 2)) Undefined = 3%Z.
Proof.
  intros unknown. split.
  - exact (proj1 (width_NaN_largeTablet (device 320 640 "ios" 2))
             (Str "auto") eq_refl eq_refl).
  - exact (proj2 (proj2 (width_NaN_largeTablet
                           (setWindow unknown (device 320 640 "ios" 2)))
                        eq_refl)).
Defined.

(** X4. [isTablet()] holds exactly when the smaller dimension is not below
    768, so turning the device never changes it, for any window. *)
Theorem isTablet_rotate (env : Env) :
  isTablet env Undefined
  = negb (Math.min (screenWidth env) (screenHeight env) <? int 768)
  /\ isTablet (rotate env) Undefined = isTablet env Undefined.
Proof.
  assert (H : forall e : Env,
             isTablet e Undefined
             = negb (Math.min (screenWidth e) (screenHeight e) <? int 768)).
  { intros e. unfold isTablet, defaultTo.
    change (getDeviceType e Null) with (getDeviceType e Undefined).
    rewrite getDeviceType_classify. fold (screenWidth e) (screenHeight e).
    unfold Spec.classify.
    destruct (Math.min (screenWidth e) (screenHeight e) <? int 768);
      [destruct (screenWidth e <? int 360);
       [|destruct (screenWidth e <? int 400)]
      |destruct (screenWidth e <? int 1024)]; reflexivity. }
  split; [apply H|]. rewrite !H.
  change (screenWidth (rotate env)) with (screenHeight env).
  change (screenHeight (rotate env)) with (screenWidth env).
  now rewrite min_comm.
Qed.

(** X5. The classifier returns one of the five class names for every
    window and every argument, so the [default] branch of the [switch] in
    [getGridColumns] is never taken and the result is always an entry of
    the table. *)
Theorem getDeviceType_exhaustive (env : Env) (v : value) :
  exists c : Spec.DeviceClass,
    getDeviceType env v = Spec.name c
    /\ exists isLandscape : bool,
        getGridColumns env v = Spec.columns c isLandscape.
Proof.
  destruct (ToBoolean v) eqn:Hv.
  - eexists. split; [exact (getDeviceType_truthy env v Hv)|].
    eexists. exact (getGridColumns_truthy env v Hv).
  - exists (Spec.classify (screenWidth env) (screenHeight env)).
    split; [rewrite (getDeviceType_falsy env v Hv); apply getDeviceType_classify|].
    exists (screenWidth env >? screenHeight env).
    rewrite (getGridColumns_falsy env v Hv), getGridColumns_default,
      getDeviceType_classify.
    apply columnsFor_name.
Qed.

(** X6. The grid has a single column exactly for a phone that is not in
    landscape; every tablet and every landscape window gets at least 2. *)
Theorem getGridColumns_single_column (env : Env) :
  (getGridColumns env Undefined = 1%Z
   <-> isTablet env Undefined = false
       /\ (screenWidth env >? screenHeight env) = false)
  /\ (getGridColumns env Undefined <> 1%Z ->
      (2 <= getGridColumns env Undefined)%Z).
Proof.
  assert (Ht : isTablet env Undefined
               = let c := Spec.classify (screenWidth env) (screenHeight env) in
                 match c with
                 | Spec.tablet | Spec.largeTablet => true
                 | _ => false
                 end).
  { unfold isTablet, defaultTo.
    change (getDeviceType env Null) with (getDeviceType env Undefined).
    rewrite getDeviceType_classify. fold (screenWidth env) (screenHeight env).
    now destruct (Spec.classify (screenWidth env) (screenHeight env)). }
  rewrite Ht, getGridColumns_default, getDeviceType_classify, columnsFor_name.
  fold (screenWidth env) (screenHeight env). cbv zeta.
  destruct (Spec.classify (screenWidth env) (screenHeight env)),
           (screenWidth env >? screenHeight env); simpl;
    (split; [split; [intros H; try discriminate; auto
                    |intros [H1 H2]; try discriminate; reflexivity]
            |intros H; try lia; try (exfalso; apply H; reflexivity)]).
Qed.

End WidthArgumentTruthy.

Lemma getGridColumns_single_column_witness :
  Responsive.getGridColumns (device 360 640 "ios" 2) Undefined = 1
  /\ (2 <= Responsive.getGridColumns (device 640 360 "ios" 2) Undefined).
Proof.
  split.
  - apply (proj1 (getGridColumns_single_column (device 360 640 "ios" 2))).
    split; reflexivity.
  - apply (proj2 (getGridColumns_single_column (device 640 360 "ios" 2))).
    vm_compute. discriminate.
Defined.

(** ** Exact percentages and proportional fonts *)
Section ExactScaling.

Import Responsive.
Local Open Scope string_scope.
Local Open Scope js_scope.

Lemma int_mul (a b : Z) : int a * int b = int (a * b).
Proof.
  unfold int, mul. f_equal. apply Qc_is_canon.
  unfold Qcmult, Q2Qc; cbn [this].
  rewrite !Qred_correct, inject_Z_mult. reflexivity.
Qed.

Lemma sgn_int (d : Z) : d <> 0%Z -> sgn (Q2Qc (inject_Z d)) <> Eq.
Proof.
  intros Hd H. unfold sgn in H. apply Qceq_alt in H.
  apply (f_equal this) in H. unfold Q2Qc in H; cbn [this] in H.
  assert (Hq : (inject_Z d == 0)%Q).
  { rewrite <- (Qred_correct (inject_Z d)), H. apply Qred_correct. }
  unfold Qeq in Hq; simpl in Hq. lia.
Qed.

(** [n * (w / d)] is the integer [m] when [n * w = d * m]. *)
Lemma mul_div_int (n w d m : Z) :
  d <> 0%Z -> (n * w = d * m)%Z -> int n * (int w / int d) = int m.
Proof.
  intros Hd H. unfold int at 2 3. unfold div.
  pose proof (sgn_int d Hd) as Hs.
  assert (E : Fin (Q2Qc (inject_Z n) * (Q2Qc (inject_Z w) / Q2Qc (inject_Z d)))%Qc
              = int m).
  { unfold int. f_equal. apply Qc_is_canon.
    unfold Qcmult, Qcdiv, Qcmult, Qcinv, Q2Qc; cbn [this].
    rewrite !Qred_correct.
    assert (Hdq : ~ (inject_Z d == 0)%Q)
      by (unfold Qeq; simpl; lia).
    rewrite Qmult_assoc, <- inject_Z_mult, H, inject_Z_mult.
    rewrite (Qmult_comm (inject_Z d)). apply Qdiv_mult_l. exact Hdq. }
  destruct (sgn (Q2Qc (inject_Z d))); [contradiction| |]; exact E.
Qed.

(** [(p * w) / d] is the integer [m] when [p * w = d * m]. *)
Lemma div_mul_int (p w d m : Z) :
  d <> 0%Z -> (p * w = d * m)%Z -> (int p * int w) / int d = int m.
Proof.
  intros Hd H. rewrite int_mul, H. unfold int, div.
  pose proof (sgn_int d Hd) as Hs.
  assert (E : Fin (Q2Qc (inject_Z (d * m)) / Q2Qc (inject_Z d))%Qc
              = Fin (Q2Qc (inject_Z m))).
  { f_equal. apply Qc_is_canon.
    unfold Qcdiv, Qcmult, Qcinv, Q2Qc; cbn [this].
    rewrite !Qred_correct, inject_Z_mult.
    rewrite (Qmult_comm (inject_Z d)). apply Qdiv_mult_l.
    unfold Qeq; simpl; lia. }
  destruct (sgn (Q2Qc (inject_Z d))); [contradiction| |]; exact E.
Qed.

(** X7. With a numeric percentage [p] of an integer width [w], both of
    magnitude at most 2^53 and with a product of magnitude at most 2^53 (so
    that [p * w] and its hundredth are computed without rounding), such
    that [p * w / 100] is an integer [m] which the pixel grid keeps within
    half a pixel, [wp(p)] is [m]; the same for [hp] and the height.  In
    particular [wp(100)] is the width. *)
Theorem wp_hp_exact (env : Env) (p m : Z) :
  (Z.abs p <= 2 ^ 53)%Z ->
  withinHalf (PixelRatio_roundToNearestPixel env (int m)) m = true ->
  (forall w : Z,
      screenWidth env = int w ->
      (Z.abs w <= 2 ^ 53)%Z -> (Z.abs (p * w) <= 2 ^ 53)%Z ->
      (p * w = 100 * m)%Z ->
      wp env (Num (int p)) = int m)
  /\ (forall h : Z,
      screenHeight env = int h ->
      (Z.abs h <= 2 ^ 53)%Z -> (Z.abs (p * h) <= 2 ^ 53)%Z ->
      (p * h = 100 * m)%Z ->
      hp env (Num (int p)) = int m).
Proof.
  intros _ Hnear. split.
  - intros w Hw _ _ H. unfold wp, getCurrentDimensions.
    fold (screenWidth env). rewrite Hw. cbn [ToNumber].
    rewrite (div_mul_int p w 100 m) by (try exact H; lia).
    now apply round_withinHalf.
  - intros h Hh _ _ H. unfold hp, getCurrentDimensions.
    fold (screenHeight env). rewrite Hh. cbn [ToNumber].
    rewrite (div_mul_int p h 100 m) by (try exact H; lia).
    now apply round_withinHalf.
Qed.

Lemma wp_hp_exact_witness :
  wp (device 360 640 "ios" 3) (Num (int 100)) = int 360
  /\ hp (device 360 640 "ios" 3) (Num (int 5)) = int 32.
Proof.
  split.
  - apply (proj1 (wp_hp_exact (device 360 640 "ios" 3) 100 360
                    ltac:(vm_compute; discriminate) eq_refl) 360);
      try reflexivity; vm_compute; discriminate.
  - apply (proj2 (wp_hp_exact (device 360 640 "ios" 3) 5 32
                    ltac:(vm_compute; discriminate) eq_refl) 640);
      try reflexivity; vm_compute; discriminate.
Defined.

(** X8. [rf] is proportional to the width where the code computes without
    rounding: for a width [w = 5 * k] (so that the scale [w / 640] is the
    double [k / 128]) and an integer size [n], all of magnitude at most
    2^53 as well as the product [n * k], with [n * k / 128] an integer [m]
    which the pixel grid keeps within half a pixel, [rf(n)] is [m] on ios
    and [m - 2] on every other platform. *)
Theorem rf_proportional (env : Env) (n k m : Z) :
  screenWidth env = int (5 * k) ->
  (Z.abs n <= 2 ^ 53)%Z ->
  (Z.abs (5 * k) <= 2 ^ 53)%Z ->
  (Z.abs (n * k) <= 2 ^ 53)%Z ->
  (n * k = 128 * m)%Z ->
  withinHalf (PixelRatio_roundToNearestPixel env (int m)) m = true ->
  rf env (Num (int n))
  = if Platform_OS env =? "ios" then int m else int (m - 2).
Proof.
  intros Hw _ _ _ H Hnear. unfold rf, getCurrentDimensions.
  fold (screenWidth env). rewrite Hw. cbn [ToNumber].
  rewrite (mul_div_int n (5 * k) 640 m) by lia.
  rewrite (round_withinHalf _ _ Hnear), int_sub. reflexivity.
Qed.

Lemma rf_proportional_witness :
  rf (device 320 568 "ios" 2) (Num (int 28)) = int 14
  /\ rf (device 1280 800 "android" 2) (Num (int 16)) = int 30.
Proof.
  split.
  - apply (rf_proportional (device 320 568 "ios" 2) 28 64 14);
      try reflexivity; vm_compute; discriminate.
  - apply (rf_proportional (device 1280 800 "android" 2) 16 256 32);
      try reflexivity; vm_compute; discriminate.
Defined.

End ExactScaling.

(** ** The header's vertical padding *)
Section Header.

Import Responsive.
Local Open Scope string_scope.

Lemma hp_NaN (env : Env) (percentage : value) :
  ToNumber percentage = NaN ->
  PixelRatio_roundToNearestPixel env NaN = NaN ->
  hp env percentage = NaN.
Proof.
  intros Hp Hgrid. unfold hp. rewrite Hp. cbn [mul div].
  now rewrite Hgrid.
Qed.

(** X11. Both calls of [hp] in the header pass a string with a percent
    sign, so with a pixel grid that keeps NaN the header's [paddingTop] is
    NaN on ios, the tablet override is NaN on every platform, and only off
    ios does the plain header get a usable value, the status bar height. *)
Theorem header_paddingTop (env : Env) (StatusBar_currentHeight : value) :
  PixelRatio_roundToNearestPixel env NaN = NaN ->
  (Platform_OS env = "ios" ->
     DashboardHeader.paddingTop env StatusBar_currentHeight = Num NaN)
  /\ (Platform_OS env <> "ios" ->
     DashboardHeader.paddingTop env StatusBar_currentHeight
     = StatusBar_currentHeight)
  /\ DashboardHeader.tabletPaddingTop env = NaN.
Proof.
  intros Hgrid. unfold DashboardHeader.paddingTop, DashboardHeader.tabletPaddingTop.
  split; [|split].
  - intros Hos. rewrite Hos. cbn [String.eqb Ascii.eqb Bool.eqb].
    now rewrite hp_NaN.
  - intros Hos. apply String.eqb_neq in Hos. now rewrite Hos.
  - now apply hp_NaN.
Qed.

Lemma header_paddingTop_witness :
  DashboardHeader.paddingTop (device 375 667 "ios" 2) (Num (int 24)) = Num NaN
  /\ DashboardHeader.paddingTop (device 360 640 "android" 3) (Num (int 24))
     = Num (int 24)
  /\ DashboardHeader.tabletPaddingTop (device 800 1280 "android" 2) = NaN.
Proof.
  split; [|split].
  - exact (proj1 (header_paddingTop (device 375 667 "ios" 2) (Num (int 24))
                    (pixelGrid_NaN (int 2))) eq_refl).
  - apply (proj1 (proj2 (header_paddingTop (device 360 640 "android" 3)
                           (Num (int 24)) (pixelGrid_NaN (int 3))))).
    discriminate.
  - exact (proj2 (proj2 (header_paddingTop (device 800 1280 "android" 2)
                           Undefined (pixelGrid_NaN (int 2))))).
Defined.

End Header.

(** ** The rows of the grid *)
Section GridRows.

Import ResponsiveGrid.
Local Open Scope list_scope.

Context {A : Type}.

Lemma pushNulls_app (m : nat) (row : list (option A)) :
  pushNulls m row = row ++ repeat None m.
Proof.
  revert row. induction m as [|m IH]; intros row; simpl.
  - now rewrite app_nil_r.
  - rewrite IH, <- app_assoc. reflexivity.
Qed.

Lemma fillRow_length (columns : Z) (row : list (option A)) :
  Z.of_nat (List.length row) <= columns ->
  Z.of_nat (List.length (fillRow columns row)) = columns.
Proof.
  intros H. unfold fillRow.
  rewrite pushNulls_app, length_app, repeat_length. lia.
Qed.

(** A slice that starts inside the array and is at least one cell wide. *)
Lemma slice_inside (l : list A) (i c : Z) :
  0 <= i -> 1 <= c ->
  slice l i (i + c)
  = firstn (Z.to_nat (Z.min (i + c) (Z.of_nat (List.length l)) - Z.min i (Z.of_nat (List.length l))))
           (skipn (Z.to_nat (Z.min i (Z.of_nat (List.length l)))) l).
Proof.
  intros Hi Hc. unfold slice.
  destruct (i <? 0) eqn:E1; [apply Z.ltb_lt in E1; lia|].
  destruct (i + c <? 0) eqn:E2; [apply Z.ltb_lt in E2; lia|].
  reflexivity.
Qed.

Lemma groupLoop_done (fuel : nat) (data : list A) (columns i : Z)
    (acc : list (list (option A))) :
  Z.of_nat (List.length data) <= i ->
  groupLoop fuel data columns i acc = Some acc.
Proof.
  intros H. destruct fuel; simpl;
    (destruct (i <? Z.of_nat (List.length data)) eqn:E;
     [apply Z.ltb_lt in E; lia|reflexivity]).
Qed.

(** The invariant of the loop for a positive number of columns. *)
Lemma groupLoop_rows (columns : Z) (fuel : nat) :
  1 <= columns ->
  forall (data : list A) (i : Z) (acc : list (list (option A))),
    0 <= i ->
    Z.of_nat (List.length data) - i <= Z.of_nat fuel ->
    exists (rows : list (list (option A))) (k : nat),
      groupLoop fuel data columns i acc = Some (acc ++ rows)
      /\ Forall (fun row => Z.of_nat (List.length row) = columns) rows
      /\ List.concat rows = map Some (skipn (Z.to_nat i) data) ++ repeat None k
      /\ Z.of_nat k < columns.
Proof.
  intros Hc. induction fuel as [|fuel IH]; intros data i acc Hi Hfuel.
  - exists [], 0%nat. rewrite groupLoop_done by lia.
    rewrite skipn_all2 by lia. rewrite app_nil_r.
    repeat split; [constructor|lia].
  - destruct (Z_lt_le_dec i (Z.of_nat (List.length data))) as [Hlt|Hge].
    2:{ exists [], 0%nat. rewrite groupLoop_done by lia.
        rewrite skipn_all2 by lia. rewrite app_nil_r.
        repeat split; [constructor|lia]. }
    cbn [groupLoop].
    destruct (i <? Z.of_nat (List.length data)) eqn:E;
      [|apply Z.ltb_ge in E; lia].
    rewrite (slice_inside data i columns Hi Hc).
    rewrite (Z.min_l i) by lia.
    set (rest := skipn (Z.to_nat i) data).
    assert (Hrest : Z.of_nat (List.length rest) = Z.of_nat (List.length data) - i)
      by (unfold rest; rewrite length_skipn; lia).
    destruct (Z_le_gt_dec (i + columns) (Z.of_nat (List.length data)))
      as [Hfull|Hlast].
    + (* a full row, the loop goes on *)
      rewrite (Z.min_l (i + columns)) by lia.
      replace (Z.to_nat (i + columns - i)) with (Z.to_nat columns) by lia.
      set (row := fillRow columns (map Some (firstn (Z.to_nat columns) rest))).
      assert (Hlen : List.length (firstn (Z.to_nat columns) rest) = Z.to_nat columns)
        by (rewrite length_firstn; lia).
      assert (Hrow : row = map Some (firstn (Z.to_nat columns) rest)).
      { unfold row, fillRow. rewrite length_map, Hlen.
        replace (Z.to_nat (columns - Z.of_nat (Z.to_nat columns))) with 0%nat by lia.
        reflexivity. }
      destruct (IH data (i + columns) (acc ++ [row])) as [rows [k [Hg [Hall [Hcat Hk]]]]];
        [lia|lia|].
      exists (row :: rows), k. rewrite Hg, <- app_assoc.
      split; [reflexivity|]. split; [|split; [|exact Hk]].
      * constructor; [|exact Hall].
        rewrite Hrow, length_map, Hlen. lia.
      * cbn [List.concat]. rewrite Hcat, Hrow, app_assoc, <- map_app.
        replace (skipn (Z.to_nat (i + columns)) data)
          with (skipn (Z.to_nat columns) rest).
        2:{ unfold rest. rewrite skipn_skipn. f_equal. lia. }
        now rewrite firstn_skipn.
    + (* the last row, filled with nulls *)
      rewrite (Z.min_r (i + columns)) by lia.
      replace (firstn (Z.to_nat (Z.of_nat (List.length data) - i)) rest) with rest.
      2:{ symmetry. apply firstn_all2. lia. }
      rewrite groupLoop_done by lia.
      exists [fillRow columns (map Some rest)],
             (Z.to_nat (columns - Z.of_nat (List.length (map Some rest)))).
      split; [reflexivity|]. split; [|split].
      * constructor; [|constructor].
        apply fillRow_length. rewrite length_map. lia.
      * cbn [List.concat]. rewrite app_nil_r. unfold fillRow.
        apply pushNulls_app.
      * rewrite length_map. lia.
Qed.

Lemma concat_length_uniform (c : Z) (rows : list (list (option A))) :
  Forall (fun row => Z.of_nat (List.length row) = c) rows ->
  Z.of_nat (List.length (List.concat rows)) = Z.of_nat (List.length rows) * c.
Proof.
  induction 1 as [|row rows Hrow _ IH]; [reflexivity|].
  cbn [List.concat List.length].
  rewrite length_app, Nat2Z.inj_add, Nat2Z.inj_succ, Z.mul_succ_l. lia.
Qed.

(** X12. With at least one column the loop ends within [data.length]
    passes; every row has exactly [columns] cells; read row after row, the
    cells are the items of [data] in order, each once, followed by fewer
    than [columns] nulls; so there are ceil(length / columns) rows. *)
Theorem groupData_rows (data : list A) (columns : Z) (fuel : nat) :
  1 <= columns ->
  (List.length data <= fuel)%nat ->
  exists (rows : list (list (option A))) (k : nat),
    groupData fuel data columns = Some rows
    /\ Forall (fun row => Z.of_nat (List.length row) = columns) rows
    /\ List.concat rows = map Some data ++ repeat None k
    /\ Z.of_nat k < columns
    /\ Z.of_nat (List.length rows) * columns
       = Z.of_nat (List.length data) + Z.of_nat k.
Proof.
  intros Hc Hfuel.
  destruct (groupLoop_rows columns fuel Hc data 0 []) as [rows [k [Hg [Hall [Hcat Hk]]]]];
    [lia|lia|].
  exists rows, k. unfold groupData. rewrite Hg.
  repeat split; try assumption.
  rewrite <- (concat_length_uniform columns rows Hall), Hcat.
  rewrite length_app, length_map, repeat_length. simpl. lia.
Qed.

Lemma groupLoop_stuck (columns : Z) (data : list A) (fuel : nat) :
  columns <= 0 -> data <> [] ->
  forall (i : Z) (acc : list (list (option A))),
    i <= 0 -> groupLoop fuel data columns i acc = None.
Proof.
  intros Hc Hd. induction fuel as [|fuel IH]; intros i acc Hi;
    (assert (Hlen : (0 < Z.of_nat (List.length data)))
       by (destruct data; [contradiction|simpl; lia]));
    cbn [groupLoop];
    (destruct (i <? Z.of_nat (List.length data)) eqn:E;
     [|apply Z.ltb_ge in E; lia]).
  - reflexivity.
  - apply IH. lia.
Qed.

(** X13. An empty [data] gives no row, whatever the number of columns;
    with items to show and a number of columns of 0 or less the index
    never advances and the loop does not end, however long it runs. *)
Theorem groupData_edge (columns : Z) :
  (forall fuel : nat, groupData fuel (@nil A) columns = Some [])
  /\ (columns <= 0 ->
      forall (data : list A) (fuel : nat),
        data <> [] -> groupData fuel data columns = None).
Proof.
  split.
  - intros fuel. apply groupLoop_done. simpl. lia.
  - intros Hc data fuel Hd. now apply groupLoop_stuck.
Qed.

End GridRows.

Lemma groupData_rows_witness :
  exists rows k,
    ResponsiveGrid.groupData 5 [1; 2; 3; 4; 5] 2 = Some rows
    /\ Forall (fun row => Z.of_nat (List.length row) = 2) rows
    /\ List.concat rows = map Some [1; 2; 3; 4; 5] ++ repeat None k
    /\ Z.of_nat k < 2
    /\ Z.of_nat (List.length rows) * 2 = 5 + Z.of_nat k.
Proof.
  apply (groupData_rows [1; 2; 3; 4; 5] 2 5); [lia | simpl; lia].
Defined.

Lemma groupData_edge_witness :
  ResponsiveGrid.groupData 1000 [1; 2; 3] (-1) = None.
Proof.
  apply (proj2 (groupData_edge (-1))); [lia | discriminate].
Defined.

(** ** The grid's column state *)
Section GridState.

Import Responsive ResponsiveGrid.

Lemma last_cons {B : Type} (x : B) (l : list B) (d : B) :
  last (x :: l) d = last l x.
Proof.
  revert x d. induction l as [|y l IH]; intros x d; [reflexivity|].
  change (last (x :: y :: l) d) with (last (y :: l) d).
  now rewrite !IH.
Qed.

Lemma updateLayout_follows (env : Env) (numColumns : value) (st : State) :
  (ToBoolean numColumns = true -> st_columns st = numColumns) ->
  follows env numColumns (updateLayout env numColumns st).
Proof.
  intros Hfixed. unfold follows, updateLayout.
  destruct (ToBoolean numColumns); cbn [negb st_columns st_screenWidth].
  - split; [reflexivity|now apply Hfixed].
  - split; [reflexivity|].
    fold (screenWidth env). now rewrite getGridColumns_own_width.
Qed.

Lemma mount_follows (env : Env) (numColumns : value) :
  follows env numColumns (mount env numColumns).
Proof.
  destruct (updateLayout_follows env numColumns (initialState env numColumns))
    as [Hw Hc].
  { intros Ht. unfold initialState, orElse; cbn [st_columns]. now rewrite Ht. }
  unfold follows, mount, syncColumns.
  destruct (ToBoolean numColumns) eqn:Ht; cbn [st_columns st_screenWidth].
  - split; [exact Hw|reflexivity].
  - split; [exact Hw|exact Hc].
Qed.

(** X14. The grid's state follows the window.  After mounting and after
    any sequence of dimension changes, [screenWidth] is the width of the
    latest window; without [numColumns] (or with a falsy one) [columns] is
    what [getGridColumns()] gives for the latest window, a number from 1
    to 5; with a truthy [numColumns], [columns] stays [numColumns]. *)
Theorem grid_state_follows_window
    (env : Env) (numColumns : value) (ws : list Window.t) :
  let st := afterChanges env numColumns ws in
  let latest := setWindow (last ws (Dimensions_window env)) env in
  st_screenWidth st = screenWidth latest
  /\ (ToBoolean numColumns = true -> st_columns st = numColumns)
  /\ (ToBoolean numColumns = false ->
      st_columns st = Num (int (getGridColumns latest Undefined))
      /\ (1 <= getGridColumns latest Undefined <= 5)%Z).
Proof.
  cbv zeta.
  assert (H : forall (ws : list Window.t) (w : Window.t) (st : State),
             follows (setWindow w env) numColumns st ->
             follows (setWindow (last ws w) env) numColumns
               (fold_left (fun st w => updateLayout (setWindow w env) numColumns st)
                          ws st)).
  { clear ws. induction ws as [|w' ws IH]; intros w st Hst; [exact Hst|].
    rewrite last_cons. cbn [fold_left]. apply IH.
    apply updateLayout_follows. intros Ht. destruct Hst as [_ Hc].
    now rewrite Ht in Hc. }
  assert (Hboot : follows (setWindow (Dimensions_window env) env) numColumns
                    (mount env numColumns)).
  { replace (setWindow (Dimensions_window env) env) with env
      by (destruct env; reflexivity).
    apply mount_follows. }
  destruct (H ws _ _ Hboot) as [Hw Hc]. unfold afterChanges.
  split; [exact Hw|]. split.
  - intros Ht. now rewrite Ht in Hc.
  - intros Hf. rewrite Hf in Hc. split; [exact Hc|].
    pose proof (columnsFor_range
                  (getDeviceType (setWindow (last ws (Dimensions_window env)) env)
                                 (Null ||| Num (Window.width (last ws (Dimensions_window env))))%js)
                  (ToNumber (Null ||| Num (Window.width (last ws (Dimensions_window env))))%js
                   >? Window.height (last ws (Dimensions_window env)))%js) as Hr.
    change (In (getGridColumns (setWindow (last ws (Dimensions_window env)) env) Undefined)
               [1; 2; 3; 4; 5]%Z) in Hr.
    simpl in Hr. lia.
Qed.

Lemma grid_state_follows_window_witness :
  st_columns (afterChanges (device 360 640 "ios" 2) Undefined
                [ {| Window.width := int 640; Window.height := int 360 |} ])
  = Num (int 2)
  /\ st_columns (afterChanges (device 360 640 "ios" 2) (Num (int 3))
                   [ {| Window.width := int 640; Window.height := int 360 |} ])
     = Num (int 3).
Proof.
  split.
  - exact (proj1 (proj2 (proj2 (grid_state_follows_window
             (device 360 640 "ios" 2) Undefined
             [ {| Window.width := int 640; Window.height := int 360 |} ]))
             eq_refl)).
  - exact (proj1 (proj2 (grid_state_follows_window
             (device 360 640 "ios" 2) (Num (int 3))
             [ {| Window.width := int 640; Window.height := int 360 |} ]))
             eq_refl).
Defined.

End GridState.

(** ** The dashboard screen *)
Section Screen.

Import DashboardScreen.
Local Open Scope string_scope.
Local Open Scope list_scope.

Lemma toggleOrientation_twice (o : string) :
  o = "portrait" \/ o = "landscape" ->
  toggleOrientation (toggleOrientation o) = o.
Proof. intros [-> | ->]; reflexivity. Qed.

Lemma toggleOrientation_valid (o : string) :
  toggleOrientation o = "portrait" \/ toggleOrientation o = "landscape".
Proof. unfold toggleOrientation. destruct (o =? "portrait"); auto. Qed.

(** Each change of dimensions runs the registered listener once. *)
Lemma run_changes (ws : list Window.t) (r : Runtime.t string) (l : Runtime.Listener string) :
  Runtime.listeners r = [l] ->
  (forall env prev, l env prev = toggleOrientation prev) ->
  Runtime.app (Runtime.run (map Runtime.Change ws) r)
  = Nat.iter (List.length ws) toggleOrientation (Runtime.app r)
  /\ Dimensions_window (Runtime.host (Runtime.run (map Runtime.Change ws) r))
     = last ws (Dimensions_window (Runtime.host r)).
Proof.
  intros Hl Hcb. revert r Hl.
  induction ws as [|w ws IH]; intros r Hl; [split; reflexivity|].
  change (Runtime.run (map Runtime.Change (w :: ws)) r)
    with (Runtime.run (map Runtime.Change ws) (Runtime.change w r)).
  destruct (IH (Runtime.change w r) Hl) as [Ha Hh]. rewrite Ha, Hh. split.
  - cbn [Runtime.change Runtime.app]. rewrite Hl. cbn [fold_left].
    rewrite Hcb. cbn [List.length]. symmetry. apply Nat.iter_succ_r.
  - cbn [Runtime.change Runtime.host setWindow Dimensions_window].
    symmetry. apply last_cons.
Qed.

Lemma iter_toggle (n : nat) (o : string) :
  o = "portrait" \/ o = "landscape" ->
  Nat.iter n toggleOrientation o
  = if Nat.even n then o else toggleOrientation o.
Proof.
  intros Ho. induction n as [|n IH]; [reflexivity|].
  change (Nat.iter (S n) toggleOrientation o)
    with (toggleOrientation (Nat.iter n toggleOrientation o)).
  rewrite IH, Nat.even_succ, <- Nat.negb_even.
  destruct (Nat.even n); cbn [negb]; [reflexivity|].
  now apply toggleOrientation_twice.
Qed.

(** X15. The screen's orientation is a count, not a measurement.  Starting
    from [portrait] or [landscape], after [n] changes of dimensions the
    state is the starting value when [n] is even and the other one when
    [n] is odd, whatever the windows were; the window in force is the
    latest one.  From any other starting value one change leads to
    [portrait]. *)
Theorem orientation_parity (env : Env) (o : string) (ws : list Window.t) :
  (o = "portrait" \/ o = "landscape" ->
   Runtime.app (afterChanges env o ws)
   = if Nat.even (List.length ws) then o else toggleOrientation o)
  /\ Dimensions_window (Runtime.host (afterChanges env o ws))
     = last ws (Dimensions_window env)
  /\ (o <> "portrait" ->
      forall w : Window.t, Runtime.app (afterChanges env o [w]) = "portrait").
Proof.
  assert (H : forall ws : list Window.t,
     Runtime.app (afterChanges env o ws)
     = Nat.iter (List.length ws) toggleOrientation o
     /\ Dimensions_window (Runtime.host (afterChanges env o ws))
        = last ws (Dimensions_window env)).
  { intros ws'. unfold afterChanges.
    change (Runtime.run (Runtime.Listen orientationListener :: map Runtime.Change ws')
                        (Runtime.boot env o))
      with (Runtime.run (map Runtime.Change ws')
              (Runtime.listenForOrientationChange orientationListener
                 (Runtime.boot env o))).
    eapply run_changes; [reflexivity|]. intros e prev. reflexivity. }
  split; [|split].
  - intros Ho. rewrite (proj1 (H ws)). now apply iter_toggle.
  - apply (proj2 (H ws)).
  - intros Ho w. rewrite (proj1 (H [w])).
    change (Nat.iter (List.length [w]) toggleOrientation o)
      with (toggleOrientation o).
    unfold toggleOrientation. apply String.eqb_neq in Ho. now rewrite Ho.
Qed.

Lemma orientation_parity_witness :
  let turned := {| Window.width := int 640; Window.height := int 360 |} in
  let resized := {| Window.width := int 640; Window.height := int 300 |} in
  Runtime.app (afterChanges (device 360 640 "android" 2) "portrait"
                 [turned; resized]) = "portrait"
  /\ Runtime.app (afterChanges (device 360 640 "android" 2) "LANDSCAPE"
                    [turned]) = "portrait".
Proof.
  intros turned resized. split.
  - exact (proj1 (orientation_parity (device 360 640 "android" 2) "portrait"
                    [turned; resized]) (or_introl eq_refl)).
  - apply (proj2 (proj2 (orientation_parity (device 360 640 "android" 2)
                           "LANDSCAPE" []))).
    discriminate.
Defined.

(** X16. The refresh keeps the list of statistics in shape: same length,
    same ids in the same order, every statistic whose id is not the number
    1 untouched, every one whose id is 1 replaced by a copy that differs
    in its value only, now the new one; and doing it again changes
    nothing. *)
Theorem refresh_statistics (statistics : list Statistic) :
  List.length (refresh statistics) = List.length statistics
  /\ map id (refresh statistics) = map id statistics
  /\ refresh (refresh statistics) = refresh statistics
  /\ (forall (n : nat) (stat : Statistic),
      nth_error statistics n = Some stat ->
      strictEquals (id stat) (Num (int 1)) = false ->
      nth_error (refresh statistics) n = Some stat)
  /\ (forall (n : nat) (stat : Statistic),
      nth_error statistics n = Some stat ->
      strictEquals (id stat) (Num (int 1)) = true ->
      nth_error (refresh statistics) n
      = Some {| id := id stat;
                title := title stat;
                value_ := "$25.2K";
                subtitle := subtitle stat;
                icon := icon stat;
                iconColor := iconColor stat;
                trend := trend stat;
                trendValue := trendValue stat |}).
Proof.
  split; [apply length_map|]. split; [|split; [|split]].
  - unfold refresh. rewrite map_map. reflexivity.
  - unfold refresh. rewrite map_map. apply map_ext. intros stat.
    cbn [id value_]. now destruct (strictEquals (id stat) (Num (int 1))).
  - intros n stat Hn Hid. unfold refresh.
    rewrite nth_error_map, Hn. cbn [option_map]. rewrite Hid.
    now destruct stat.
  - intros n stat Hn Hid. unfold refresh.
    rewrite nth_error_map, Hn. cbn [option_map]. now rewrite Hid.
Qed.

Lemma refresh_statistics_witness :
  let sales := {| id := Num (int 1); title := "Total Sales"; value_ := "$24.5K";
                  subtitle := "This month"; icon := "trending-up";
                  iconColor := "#28a745"; trend := "up"; trendValue := "+12%" |} in
  let users := {| id := Num (int 2); title := "New Users"; value_ := "1,234";
                  subtitle := "This week"; icon := "people";
                  iconColor := "#3498db"; trend := "up"; trendValue := "+8%" |} in
  nth_error (refresh [sales; users]) 1 = Some users
  /\ nth_error (refresh [sales; users]) 0
     = Some {| id := Num (int 1); title := "Total Sales"; value_ := "$25.2K";
               subtitle := "This month"; icon := "trending-up";
               iconColor := "#28a745"; trend := "up"; trendValue := "+12%" |}.
Proof.
  intros sales users.
  destruct (refresh_statistics [sales; users]) as [_ [_ [_ [Hkeep Hnew]]]].
  split.
  - apply Hkeep; reflexivity.
  - exact (Hnew 0%nat sales eq_refl eq_refl).
Defined.

End Screen.

(** ** Turning the device *)
Section Turning.

Import Responsive.
Local Open Scope js_scope.

Lemma ltb_Fin (a b : Qc) : (Fin a <? Fin b) = true <-> (a < b)%Qc.
Proof.
  unfold ltb. rewrite Qclt_alt.
  destruct (Qccompare a b); split; intros H; try reflexivity; discriminate.
Qed.

Lemma ltb_trans (x y z : number) :
  (x <? y) = true -> (y <? z) = true -> (x <? z) = true.
Proof.
  destruct x as [| |a|], y as [| |b|], z as [| |c|];
    try discriminate; try reflexivity.
  rewrite !ltb_Fin. apply Qclt_trans.
Qed.

Lemma ltb_asym (x y : number) : (x <? y) = true -> (y <? x) = false.
Proof.
  destruct x as [| |a|], y as [| |b|]; try discriminate; try reflexivity.
  intros H. apply ltb_Fin in H. apply not_true_iff_false. intros Hc.
  apply ltb_Fin in Hc. exact (Qclt_not_le _ _ H (Qclt_le_weak _ _ Hc)).
Qed.

(** X17. Turning a device from portrait (width below height) to landscape
    always adds columns: the count for the turned window is strictly
    larger, for every class of device. *)
Theorem turning_adds_columns (env : Env) :
  (screenWidth env <? screenHeight env) = true ->
  (getGridColumns env Undefined < getGridColumns (rotate env) Undefined)%Z.
Proof.
  intros Hp.
  rewrite !getGridColumns_default, !getDeviceType_classify, !columnsFor_name.
  change (Window.width (Dimensions_window (rotate env))) with (screenHeight env).
  change (Window.height (Dimensions_window (rotate env))) with (screenWidth env).
  fold (screenWidth env) (screenHeight env).
  unfold gtb. rewrite Hp, (ltb_asym _ _ Hp).
  unfold Spec.classify.
  rewrite (min_comm (screenHeight env) (screenWidth env)).
  destruct (Math.min (screenWidth env) (screenHeight env) <? int 768).
  - destruct (screenWidth env <? int 360), (screenWidth env <? int 400),
             (screenHeight env <? int 360), (screenHeight env <? int 400);
      simpl; lia.
  - destruct (screenHeight env <? int 1024) eqn:Hh.
    + rewrite (ltb_trans _ _ _ Hp Hh). simpl. lia.
    + destruct (screenWidth env <? int 1024); simpl; lia.
Qed.

Lemma turning_adds_columns_witness :
  (getGridColumns (device 800 1100 "ios" 2) Undefined
   < getGridColumns (rotate (device 800 1100 "ios" 2)) Undefined)%Z.
Proof.
  apply (turning_adds_columns (device 800 1100 "ios" 2)). reflexivity.
Defined.

End Turning.
